(** * Connector metadata resolution and change detection

    A shallow embedding of [tools/ci_connector_ops/ci_connector_ops/utils.py]:
    the [Connector] value class with its derived properties, and the three
    detectors that project a list of paths onto a set of connectors.

    Conventions of the embedding.
    - A Python [str] is a [string]; one [ascii] stands for one character
      (code points below 256).
    - A Python expression that may raise is a [result]: [Ok v] or
      [Raise e], threaded with the monadic bind of stdpp.
    - The file system is a finite map from the path string handed to the
      operating system to the node found there.
    - What the module imports from other libraries ([yaml.safe_load],
      [git diff], [glob], the formatting of a value inside an f-string,
      the [DIFFED_BRANCH] environment value) is a [Variable] of the section
      that uses it. *)

From Stdlib Require Import ZArith String Ascii.
From Stdlib.Floats Require Import SpecFloat.
From stdpp Require Import base option list strings gmap.

Local Open Scope string_scope.

(* ===================================================================== *)
(** ** Exceptions and results *)
(* ===================================================================== *)

Inductive exception : Type :=
  | ConnectorInvalidNameError
  | ConnectorVersionNotFound
  | ConnectorLanguageError
  | KeyError
  | IndexError
  | TypeError
  | AttributeError
  | FileNotFoundError
  | IsADirectoryError
  | YAMLError
  | GitCommandError
  | NotADirectoryError
  | PermissionError.

Inductive result (A : Type) : Type :=
  | Ok (a : A)
  | Raise (e : exception).
Arguments Ok {A} a.
Arguments Raise {A} e.

#[global] Instance result_ret : MRet result := λ A a, Ok a.
#[global] Instance result_bind : MBind result := λ A B f m,
  match m with
  | Ok a => f a
  | Raise e => Raise e
  end.
#[global] Instance result_fmap : FMap result := λ A B f m,
  match m with
  | Ok a => Ok (f a)
  | Raise e => Raise e
  end.

(* ===================================================================== *)
(** ** The [str] methods the module calls *)
(* ===================================================================== *)

Module Str.

(** [s.startswith(p)] *)
Fixpoint startswith (s p : string) {struct p} : bool :=
  match p with
  | "" => true
  | String a p' =>
      match s with
      | "" => false
      | String b s' => if Ascii.eqb a b then startswith s' p' else false
      end
  end.

(** [sub in s] *)
Fixpoint contains (sub s : string) : bool :=
  startswith s sub ||
  match s with
  | "" => false
  | String _ s' => contains sub s'
  end.

(** [s[n:]] for a non-negative [n] *)
Fixpoint slice_from (n : nat) (s : string) : string :=
  match n, s with
  | O, _ => s
  | S n', String _ s' => slice_from n' s'
  | S _, "" => ""
  end.

(** [s.endswith(x)] *)
Definition endswith (s x : string) : bool :=
  (String.length x <=? String.length s)%nat &&
  String.eqb (slice_from (String.length s - String.length x) s) x.

(** [s.split(sep)] for a separator of one character, which is how the
    module calls it (["-"], ["="], ["/"] and the newline). *)
Fixpoint split (sep : ascii) (s : string) : list string :=
  match s with
  | "" => [""]
  | String c s' =>
      if Ascii.eqb c sep then "" :: split sep s'
      else match split sep s' with
           | h :: t => String c h :: t
           | [] => [String c ""]
           end
  end.

(** [s.replace(a, b)] for [a] and [b] of one character. *)
Fixpoint replace (a b : ascii) (s : string) : string :=
  match s with
  | "" => ""
  | String c s' => String (if Ascii.eqb c a then b else c) (replace a b s')
  end.

(** [c.isspace()] on the code points below 256: tab to carriage return,
    the four separators 28..31, the space, NEL and the no-break space. *)
Definition isspace (c : ascii) : bool :=
  let n := nat_of_ascii c in
  ((9 <=? n) && (n <=? 13) || (28 <=? n) && (n <=? 32)
   || (n =? 133) || (n =? 160))%nat.

Fixpoint lstrip (s : string) : string :=
  match s with
  | "" => ""
  | String c s' => if isspace c then lstrip s' else s
  end.

Fixpoint rstrip (s : string) : string :=
  match s with
  | "" => ""
  | String c s' =>
      match rstrip s' with
      | "" => if isspace c then "" else String c ""
      | r => String c r
      end
  end.

(** [s.strip()] *)
Definition strip (s : string) : string := rstrip (lstrip s).

(** The lines a text file yields when iterated: each line keeps its
    terminating newline, the last one may lack it. *)
Fixpoint readlines (s : string) : list string :=
  match s with
  | "" => []
  | String c s' =>
      if Ascii.eqb c "010"%char then String c "" :: readlines s'
      else match readlines s' with
           | h :: t => String c h :: t
           | [] => [String c ""]
           end
  end.

(** [sep.join(l)] *)
Fixpoint join (sep : string) (l : list string) : string :=
  match l with
  | [] => ""
  | [x] => x
  | x :: l' => x +:+ sep +:+ join sep l'
  end.

End Str.

(** [l[i]] on a list. *)
Definition list_getitem {A} (l : list A) (i : nat) : result A :=
  match l !! i with
  | Some x => Ok x
  | None => Raise IndexError
  end.

(* ===================================================================== *)
(** ** Python values: what [yaml.safe_load] hands back *)
(* ===================================================================== *)

(** The values of a loaded YAML document: the scalars, sequences and
    mappings. A [dict] is kept as its list of items; its keys are pairwise
    distinct, so the first item found under a key is the item. *)
#[warnings="-register-all"]
Inductive pyval : Type :=
  | PNone
  | PBool (b : bool)
  | PInt (z : Z)
  | PFloat (f : spec_float)
  | PStr (s : string)
  | PList (l : list pyval)
  | PDict (items : list (pyval * pyval)).

(** [bool(v)] *)
Definition truthy (v : pyval) : bool :=
  match v with
  | PNone => false
  | PBool b => b
  | PInt z => negb (z =? 0)%Z
  | PFloat f => match f with S754_zero _ => false | _ => true end
  | PStr s => negb (String.eqb s "")
  | PList l => match l with [] => false | _ => true end
  | PDict items => match items with [] => false | _ => true end
  end.

(** [v is None] *)
Definition is_none (v : pyval) : bool :=
  match v with
  | PNone => true
  | _ => false
  end.

(** The value stored under the [str] key [k]: only a [str] key equal to
    [k] compares (and hashes) equal to it. *)
Fixpoint dict_lookup (k : string) (items : list (pyval * pyval)) : option pyval :=
  match items with
  | [] => None
  | (PStr k', v) :: rest => if String.eqb k' k then Some v else dict_lookup k rest
  | _ :: rest => dict_lookup k rest
  end.

(** [v[k]] for a [str] key [k]. *)
Definition getitem (v : pyval) (k : string) : result pyval :=
  match v with
  | PDict items =>
      match dict_lookup k items with
      | Some x => Ok x
      | None => Raise KeyError
      end
  | _ => Raise TypeError
  end.

(** [v.get(k)] for a [str] key [k]: a method of [dict] only. *)
Definition py_get (v : pyval) (k : string) : result pyval :=
  match v with
  | PDict items => Ok (default PNone (dict_lookup k items))
  | _ => Raise AttributeError
  end.

(* ===================================================================== *)
(** ** Paths and the file system *)
(* ===================================================================== *)

(** A [pathlib.Path] on a POSIX system: its root ([""], ["/"] or ["//"])
    and its parts after the root. *)
Record Path : Type := mkPath { root : string; parts : list string }.

Definition is_part (c : string) : bool :=
  negb (String.eqb c "") && negb (String.eqb c ".").

Fixpoint leading_slashes (s : string) : nat :=
  match s with
  | String "/" s' => S (leading_slashes s')
  | _ => O
  end.

(** [Path(s)]: the empty and the ["."] components are dropped; exactly
    two leading slashes are kept as the root ["//"]. *)
Definition parse_path (s : string) : Path :=
  mkPath (match leading_slashes s with
          | 0 => ""
          | 2 => "//"
          | _ => "/"
          end)
         (filter (λ c, is_part c) (Str.split "/" s)).

(** [p / s]: a rooted right operand replaces the left one. *)
Definition joinpath (p : Path) (s : string) : Path :=
  let q := parse_path s in
  if String.eqb (root q) "" then mkPath (root p) (parts p ++ parts q) else q.

(** [str(p)] *)
Definition path_str (p : Path) : string :=
  match root p, parts p with
  | "", [] => "."
  | r, ps => r +:+ Str.join "/" ps
  end.

(** [p.parent] *)
Definition parent (p : Path) : Path := mkPath (root p) (removelast (parts p)).

(** [p.name] *)
Definition path_name (p : Path) : string := List.last (parts p) "".

(** What the file system holds at a path: a regular file the process can
    read, with its text, a directory, or a regular file the process may not
    open. A path the map does not list holds nothing. *)
Inductive fsnode : Type :=
  | RegularFile (content : string)
  | Directory
  | ProtectedFile.

(** [p.is_file()] *)
Definition is_file (fs : gmap string fsnode) (p : Path) : bool :=
  match fs !! path_str p with
  | Some (RegularFile _) | Some ProtectedFile => true
  | _ => false
  end.

(** The paths above [p], the nearest to the root first; the current
    directory and the root are left out, being directories. *)
Definition ancestors (p : Path) : list Path :=
  (λ k, mkPath (root p) (take k (parts p))) <$> seq 1 (length (parts p) - 1).

(** Whether a path above [p] is a regular file, so that the system
    answers [ENOTDIR] for what lies below it. *)
Definition below_regular_file (fs : gmap string fsnode) (p : Path) : bool :=
  existsb (is_file fs) (ancestors p).

(** [open(p).read()] and [p.read_text()]: the text of a regular file, as
    text mode gives it (line ends already translated to the newline), or
    the error of the opening. *)
Definition read_file (fs : gmap string fsnode) (p : Path) : result string :=
  match fs !! path_str p with
  | Some (RegularFile content) => Ok content
  | Some Directory => Raise IsADirectoryError
  | Some ProtectedFile => Raise PermissionError
  | None =>
      if below_regular_file fs p then Raise NotADirectoryError
      else Raise FileNotFoundError
  end.

(* ===================================================================== *)
(** ** Module constants *)
(* ===================================================================== *)

Definition CONNECTOR_PATH_PREFIX : string := "airbyte-integrations/connectors".
Definition SOURCE_CONNECTOR_PATH_PREFIX : string := CONNECTOR_PATH_PREFIX +:+ "/source-".
Definition DESTINATION_CONNECTOR_PATH_PREFIX : string := CONNECTOR_PATH_PREFIX +:+ "/destination-".
Definition ACCEPTANCE_TEST_CONFIG_FILE_NAME : string := "acceptance-test-config.yml".
Definition METADATA_FILE_NAME : string := "metadata.yaml".

(* ===================================================================== *)
(** ** The [Connector] class *)
(* ===================================================================== *)

(** A frozen dataclass: equality and hashing are those of its one field. *)
Record Connector : Type := mkConnector { technical_name : string }.

#[global] Instance Connector_eq_dec : EqDecision Connector.
Proof. solve_decision. Defined.
#[global] Instance Connector_countable : Countable Connector :=
  inj_countable' technical_name mkConnector (λ c, match c with mkConnector _ => eq_refl end).



Definition _get_type_and_name_from_technical_name (c : Connector) : result (string * string) :=
  if negb (Str.contains "-" (technical_name c)) then Raise ConnectorInvalidNameError
  else
    _type ← list_getitem (Str.split "-" (technical_name c)) 0;
    let name := Str.slice_from (String.length _type + 1) (technical_name c) in
    mret (_type, name).

Definition name (c : Connector) : result string :=
  snd <$> _get_type_and_name_from_technical_name c.

Definition connector_type (c : Connector) : result string :=
  fst <$> _get_type_and_name_from_technical_name c.

Definition code_directory (c : Connector) : Path :=
  parse_path ("./airbyte-integrations/connectors/" +:+ technical_name c).

(** The path strings of the two files [version] may read. *)
Abbreviation metadata_file c :=
  (path_str (joinpath (code_directory c) METADATA_FILE_NAME)) (only parsing).
Abbreviation dockerfile_of c :=
  (path_str (joinpath (code_directory c) "Dockerfile")) (only parsing).

Section Properties.

(** [yaml.safe_load] on the text of a document. *)
Variable safe_load : string → result pyval.

(** The text an f-string puts for a value, [format(v, "")]. *)
Variable py_format : pyval → string.

Variable fs : gmap string fsnode.

Definition metadata (c : Connector) : result pyval :=
  let file_path := joinpath (code_directory c) METADATA_FILE_NAME in
  if negb (is_file fs file_path) then Ok PNone
  else
    text ← read_file fs (joinpath (code_directory c) METADATA_FILE_NAME);
    doc ← safe_load text;
    getitem doc "data".


(** The loop over the lines of the opened Dockerfile. *)
Fixpoint scan_version_label (lines : list string) : result string :=
  match lines with
  | [] => Raise ConnectorVersionNotFound
  | line :: rest =>
      if Str.contains "io.airbyte.version" line
      then Str.strip <$> list_getitem (Str.split "=" line) 1
      else scan_version_label rest
  end.

Definition version_in_dockerfile_label (c : Connector) : result string :=
  f ← read_file fs (joinpath (code_directory c) "Dockerfile");
  scan_version_label (Str.readlines f).

Definition version (c : Connector) : result pyval :=
  m ← metadata c;
  if is_none m then PStr <$> version_in_dockerfile_label c
  else
    m' ← metadata c;
    getitem m' "dockerImageTag".

Definition release_stage (c : Connector) : result pyval :=
  m ← metadata c;
  if truthy m then m' ← metadata c; py_get m' "releaseStage" else Ok PNone.

Definition allowed_hosts (c : Connector) : result pyval :=
  m ← metadata c;
  if truthy m then m' ← metadata c; py_get m' "allowedHosts" else Ok PNone.

Definition suggested_streams (c : Connector) : result pyval :=
  m ← metadata c;
  if truthy m then m' ← metadata c; py_get m' "suggestedStreams" else Ok PNone.

(** [a and b] gives [a] back when [a] is falsy. *)
Definition supports_normalization (c : Connector) : result pyval :=
  m ← metadata c;
  if truthy m
  then m' ← metadata c; v ← py_get m' "normalizationConfig"; Ok (PBool (negb (is_none v)))
  else Ok m.

Definition normalization_repository (c : Connector) : result pyval :=
  s ← supports_normalization c;
  if truthy s
  then
    m ← metadata c;
    cfg ← getitem m "normalizationConfig";
    v ← getitem cfg "normalizationRepository";
    Ok (PStr (py_format v))
  else Ok PNone.

Definition normalization_tag (c : Connector) : result pyval :=
  s ← supports_normalization c;
  if truthy s
  then
    m ← metadata c;
    cfg ← getitem m "normalizationConfig";
    v ← getitem cfg "normalizationTag";
    Ok (PStr (py_format v))
  else Ok PNone.

End Properties.

Section Detectors.

(** The [DIFFED_BRANCH] value read from the environment at import. *)
Variable DIFFED_BRANCH : string.

(** The output of [airbyte_repo.git.diff] called with the given arguments. *)
Variable git_diff : list string → result string.

(** [glob(pattern, recursive=True)] *)
Variable glob : string → list string.

Definition get_connector_name_from_path (path : string) : result string :=
  list_getitem (Str.split "/" path) 2.

Definition diff_command_args (diff_regex : option string) : list string :=
  match diff_regex with
  | None => ["--name-only"; DIFFED_BRANCH]
  | Some r => ["--name-only"; "-G" +:+ r; DIFFED_BRANCH]
  end.

Definition get_changed_acceptance_test_config (diff_regex : option string)
  : result (gset Connector) :=
  out ← git_diff (diff_command_args diff_regex);
  let changed_acceptance_test_config_paths : gset string :=
    list_to_set
      (filter (λ file_path,
                 Str.startswith file_path SOURCE_CONNECTOR_PATH_PREFIX
                 && Str.endswith file_path ACCEPTANCE_TEST_CONFIG_FILE_NAME)
              (Str.split "010" out)) in
  names ← mapM get_connector_name_from_path
               (elements changed_acceptance_test_config_paths);
  Ok (list_to_set (mkConnector <$> names)).

Definition get_changed_connectors : result (gset Connector) :=
  out ← git_diff ["--name-only"; DIFFED_BRANCH];
  let changed_source_connector_files : gset string :=
    list_to_set
      (filter (λ file_path,
                 Str.startswith file_path SOURCE_CONNECTOR_PATH_PREFIX)
              (Str.split "010" out)) in
  names ← mapM get_connector_name_from_path
               (elements changed_source_connector_files);
  Ok (list_to_set (mkConnector <$> names)).

Definition get_all_released_connectors : gset Connector :=
  list_to_set
    ((λ metadata_file, mkConnector (path_name (parent (parse_path metadata_file))))
       <$> filter (λ metadata_file, negb (Str.contains "-scaffold-" metadata_file))
                  (glob "airbyte-integrations/connectors/**/metadata.yaml")).

End Detectors.

(* ===================================================================== *)
(** ** The remaining properties of [Connector] *)
(* ===================================================================== *)

Definition ICON_ROOT : string := "./airbyte-config-oss/init-oss/src/main/resources/icons/".

Definition documentation_file_path (c : Connector) : result Path :=
  ty ← connector_type c;
  nm ← name c;
  Ok (parse_path ("./docs/integrations/" +:+ ty +:+ "s/" +:+ nm +:+ ".md")).

Definition acceptance_test_config_path (c : Connector) : Path :=
  joinpath (code_directory c) ACCEPTANCE_TEST_CONFIG_FILE_NAME.

(** [__repr__] *)
Definition repr (c : Connector) : string := technical_name c.

Section MoreProperties.

Variable safe_load : string → result pyval.
Variable py_format : pyval → string.
Variable fs : gmap string fsnode.

Definition icon_path (c : Connector) : result Path :=
  m ← metadata safe_load fs c;
  has_icon ← (if truthy m
              then m' ← metadata safe_load fs c; py_get m' "icon"
              else Ok m);
  if truthy has_icon
  then
    m'' ← metadata safe_load fs c;
    icon ← getitem m'' "icon";
    Ok (parse_path (ICON_ROOT +:+ py_format icon))
  else
    nm ← name c;
    Ok (parse_path (ICON_ROOT +:+ nm +:+ ".svg")).


End MoreProperties.

(* ===================================================================== *)
(** ** Sample connectors *)
(* ===================================================================== *)

(** Concrete documents, file systems and command outputs on which the
    properties below are run. *)
Module Fixtures.

Definition tagged_text : string := "data:
  dockerImageTag: 0.2.1
  releaseStage: alpha
".
Definition untagged_text : string := "data:
  releaseStage: alpha
".
Definition no_data_text : string := "metadataSpecVersion: 1.0
".
Definition half_normalization_text : string := "data:
  dockerImageTag: 0.2.1
  normalizationConfig:
    normalizationTag: 0.4.0
".

(** The documents the texts above load to. *)
Definition documents : list (string * pyval) :=
  [ (tagged_text,
     PDict [(PStr "data", PDict [(PStr "dockerImageTag", PStr "0.2.1");
                                 (PStr "releaseStage", PStr "alpha")])]);
    (untagged_text,
     PDict [(PStr "data", PDict [(PStr "releaseStage", PStr "alpha")])]);
    (no_data_text,
     PDict [(PStr "metadataSpecVersion", PStr "1.0")]);
    (half_normalization_text,
     PDict [(PStr "data",
             PDict [(PStr "dockerImageTag", PStr "0.2.1");
                    (PStr "normalizationConfig",
                     PDict [(PStr "normalizationTag", PStr "0.4.0")])])]) ].

(** A loader that knows these documents and rejects any other text. *)
Definition safe_load (text : string) : result pyval :=
  match list_find (λ d, String.eqb d.1 text) documents with
  | Some (_, (_, doc)) => Ok doc
  | None => Raise YAMLError
  end.

(** A formatter that is right on [str] values, the only ones formatted
    in the sample documents. *)
Definition py_format (v : pyval) : string :=
  match v with
  | PStr s => s
  | _ => ""
  end.

Definition s3 : Connector := mkConnector "source-s3".

Definition labelled_dockerfile : string := "FROM airbyte/python-base
LABEL io.airbyte.name=airbyte/source-s3
LABEL io.airbyte.version=1.2.3
".


Definition equals_dockerfile : string := "FROM airbyte/python-base
LABEL io.airbyte.version=1.2.3=beta
".


Definition metadata_yaml : string := "airbyte-integrations/connectors/source-s3/metadata.yaml".
Definition dockerfile : string := "airbyte-integrations/connectors/source-s3/Dockerfile".

Definition fs_empty : gmap string fsnode := ∅.
Definition fs_tagged : gmap string fsnode :=
  {[ metadata_yaml := RegularFile tagged_text;
     dockerfile := RegularFile labelled_dockerfile ]}.
Definition fs_untagged : gmap string fsnode :=
  {[ metadata_yaml := RegularFile untagged_text;
     dockerfile := RegularFile labelled_dockerfile ]}.
Definition fs_no_data : gmap string fsnode :=
  {[ metadata_yaml := RegularFile no_data_text ]}.
Definition fs_half_normalization : gmap string fsnode :=
  {[ metadata_yaml := RegularFile half_normalization_text ]}.
Definition fs_labelled : gmap string fsnode :=
  {[ dockerfile := RegularFile labelled_dockerfile ]}.
Definition fs_equals : gmap string fsnode :=
  {[ dockerfile := RegularFile equals_dockerfile ]}.

Definition scenario_C_diff : string :=
  "airbyte-integrations/connectors/source-foo/acceptance-test-config.yml
airbyte-integrations/connectors/destination-bar/acceptance-test-config.yml".

Definition git_diff (args : list string) : result string := Ok scenario_C_diff.

Definition scenario_D_files : list string :=
  [ "airbyte-integrations/connectors/source-a/metadata.yaml";
    "airbyte-integrations/connectors/source-b-scaffold-test/metadata.yaml";
    "airbyte-integrations/connectors/destination-c/metadata.yaml" ].

Definition glob (pattern : string) : list string := scenario_D_files.

End Fixtures.

(* ===================================================================== *)
(** ** More sample connectors *)
(* ===================================================================== *)

Module Samples.

Definition null_data_text : string := "data:
".
Definition icon_text : string := "data:
  icon: amazon-s3.svg
".
Definition config_text : string := "connector_image: airbyte/source-s3:dev
".

Definition documents : list (string * pyval) :=
  [ (null_data_text, PDict [(PStr "data", PNone)]);
    (icon_text, PDict [(PStr "data", PDict [(PStr "icon", PStr "amazon-s3.svg")])]);
    (config_text, PDict [(PStr "connector_image", PStr "airbyte/source-s3:dev")]) ].

Definition safe_load (text : string) : result pyval :=
  match list_find (λ d, String.eqb d.1 text) documents with
  | Some (_, (_, doc)) => Ok doc
  | None => Raise YAMLError
  end.

(** A connector whose technical name has no hyphen. *)
Definition odd : Connector := mkConnector "s3".

Definition commented_dockerfile : string := "# io.airbyte.version is set below
LABEL io.airbyte.version=1.0.0
".

Definition fs_null_data : gmap string fsnode :=
  {[ Fixtures.metadata_yaml := RegularFile null_data_text;
     Fixtures.dockerfile := RegularFile Fixtures.labelled_dockerfile ]}.
Definition fs_commented : gmap string fsnode :=
  {[ Fixtures.dockerfile := RegularFile commented_dockerfile ]}.
Definition fs_odd_icon : gmap string fsnode :=
  {[ "airbyte-integrations/connectors/s3/metadata.yaml" := RegularFile icon_text ]}.


Definition docs_only_diff : string :=
  "docs/integrations/sources/s3.md
airbyte-integrations/connectors/destination-bar/build.gradle".

Definition source_diff : string :=
  "airbyte-integrations/connectors/source-foo/setup.py
airbyte-integrations/connectors/source-foo/acceptance-test-config.yml".

End Samples.

(* ===================================================================== *)
(** ** Facts about the [str] methods *)
(* ===================================================================== *)

Module StrFacts.
Import Str.

Lemma app_cons a s t : String a s +:+ t = String a (s +:+ t).
Proof. reflexivity. Qed.

Lemma app_empty_l s : "" +:+ s = s.
Proof. reflexivity. Qed.

Lemma app_empty_r s : s +:+ "" = s.
Proof. induction s as [|a s IH]; [done|]. by rewrite app_cons, IH. Qed.

Lemma app_assoc s t u : (s +:+ t) +:+ u = s +:+ t +:+ u.
Proof. induction s as [|a s IH]; [done|]. by rewrite !app_cons, IH. Qed.

Lemma length_app s t : String.length (s +:+ t) = String.length s + String.length t.
Proof. induction s as [|a s IH]; [done|]. rewrite app_cons. simpl. by rewrite IH. Qed.

Lemma ascii_eqb_true a b : Ascii.eqb a b = true ↔ a = b.
Proof. apply Ascii.eqb_eq. Qed.

Lemma ascii_eqb_false a b : Ascii.eqb a b = false ↔ a ≠ b.
Proof. apply Ascii.eqb_neq. Qed.

(** [startswith] holds exactly of the strings that extend the prefix. *)
Lemma startswith_spec s p : startswith s p = true ↔ ∃ r, s = p +:+ r.
Proof.
  revert s. induction p as [|a p IH]; intros s; simpl.
  - split; [|done]. intros _. by exists s.
  - destruct s as [|b s].
    + split; [done|]. intros [r Hr]. by rewrite app_cons in Hr.
    + destruct (Ascii.eqb a b) eqn:Hab.
      * apply ascii_eqb_true in Hab as ->. rewrite IH. split.
        -- intros [r ->]. by exists r.
        -- intros [r Hr]. rewrite app_cons in Hr. injection Hr as ->. by exists r.
      * apply ascii_eqb_false in Hab. split; [done|].
        intros [r Hr]. rewrite app_cons in Hr. by injection Hr as -> _.
Qed.

Lemma startswith_app p r : startswith (p +:+ r) p = true.
Proof. apply startswith_spec. by exists r. Qed.

(** [contains] holds exactly of the strings with the pattern inside. *)
Lemma contains_spec sub s : contains sub s = true ↔ ∃ a b, s = a +:+ sub +:+ b.
Proof.
  split.
  - induction s as [|c s IH]; simpl; rewrite orb_true_iff.
    + intros [H|H]; [|done]. apply startswith_spec in H as [r Hr].
      exists "", r. by rewrite app_empty_l.
    + intros [H|H].
      * apply startswith_spec in H as [r Hr]. exists "", r. by rewrite app_empty_l.
      * destruct (IH H) as (a & b & ->). exists (String c a), b. by rewrite app_cons.
  - intros (a & b & ->). induction a as [|c a IH].
    + rewrite app_empty_l.
      destruct (sub +:+ b) eqn:E; simpl; rewrite <- E, startswith_app; done.
    + rewrite app_cons. simpl. rewrite IH. apply orb_true_r.
Qed.

(** Membership of one character, unfolded by one step. *)
Lemma contains_char_cons c d s :
  contains (String c "") (String d s) = Ascii.eqb c d || contains (String c "") s.
Proof. simpl. by destruct (Ascii.eqb c d). Qed.

Lemma contains_char_empty c : contains (String c "") "" = false.
Proof. reflexivity. Qed.

(** A string that holds a character splits at its first occurrence. *)
Lemma contains_char_first c s :
  contains (String c "") s = true →
  ∃ a b, s = a +:+ String c b ∧ contains (String c "") a = false.
Proof.
  induction s as [|d s IH]; [done|].
  rewrite contains_char_cons. destruct (Ascii.eqb c d) eqn:Hcd; simpl.
  - intros _. apply ascii_eqb_true in Hcd as ->. by exists "", s.
  - intros H. destruct (IH H) as (a & b & -> & Ha).
    exists (String d a), b. split; [done|].
    by rewrite contains_char_cons, Hcd, Ha.
Qed.

Lemma slice_from_app s t : slice_from (String.length s) (s +:+ t) = t.
Proof. induction s as [|a s IH]; [by destruct t|]. by rewrite app_cons. Qed.

Lemma slice_from_app_add s t n :
  slice_from (String.length s + n) (s +:+ t) = slice_from n t.
Proof. induction s as [|a s IH]; [done|]. by rewrite app_cons. Qed.

Lemma slice_from_suffix n s : ∃ r, s = r +:+ slice_from n s.
Proof.
  revert s. induction n as [|n IH]; intros s; [by exists ""|].
  destruct s as [|a s]; [by exists ""|].
  destruct (IH s) as [r Hr]. exists (String a r). simpl. by rewrite app_cons, <- Hr.
Qed.

Lemma string_eqb_true s t : String.eqb s t = true ↔ s = t.
Proof. apply String.eqb_eq. Qed.

(** [endswith] holds exactly of the strings that end in the suffix. *)
Lemma endswith_spec s x : endswith s x = true ↔ ∃ r, s = r +:+ x.
Proof.
  unfold endswith. rewrite andb_true_iff, Nat.leb_le, string_eqb_true. split.
  - intros [_ H]. destruct (slice_from_suffix (String.length s - String.length x) s) as [r Hr].
    exists r. by rewrite <- H.
  - intros [r ->]. rewrite length_app. split; [lia|].
    replace (String.length r + String.length x - String.length x)
      with (String.length r) by lia.
    apply slice_from_app.
Qed.

Lemma split_nonempty sep s : split sep s ≠ [].
Proof.
  destruct s as [|c s]; simpl; [done|].
  destruct (Ascii.eqb c sep); [done|]. by destruct (split sep s).
Qed.

(** Splitting distributes over a separator. *)
Lemma split_app sep a b :
  split sep (a +:+ String sep b) = (split sep a ++ split sep b)%list.
Proof.
  induction a as [|c a IH].
  - rewrite app_empty_l. simpl. by rewrite Ascii.eqb_refl.
  - rewrite app_cons. simpl. destruct (Ascii.eqb c sep); [by rewrite IH|].
    rewrite IH. destruct (split sep a) eqn:E; [|done].
    by apply split_nonempty in E.
Qed.

Lemma split_no_sep sep a :
  contains (String sep "") a = false → split sep a = [a].
Proof.
  induction a as [|c a IH]; [done|].
  rewrite contains_char_cons, orb_false_iff. intros [Hc Ha].
  simpl. rewrite Ascii.eqb_sym, Hc. by rewrite (IH Ha).
Qed.

(** The first field of a split is the text before the first separator. *)
Lemma split_first sep a b :
  contains (String sep "") a = false →
  split sep (a +:+ String sep b) = a :: split sep b.
Proof. intros Ha. by rewrite split_app, (split_no_sep _ _ Ha). Qed.

Lemma split_fields_no_sep sep s :
  Forall (λ f, contains (String sep "") f = false) (split sep s).
Proof.
  induction s as [|c s IH]; simpl; [by repeat constructor|].
  destruct (Ascii.eqb c sep) eqn:Hc; [by constructor|].
  destruct (split sep s) as [|h t] eqn:E; [by apply split_nonempty in E|].
  inversion IH as [|?? Hh Ht]; subst. constructor; [|done].
  by rewrite contains_char_cons, Ascii.eqb_sym, Hc, Hh.
Qed.

(** Joining the fields with the separator gives the string back. *)
Lemma join_split sep s : join (String sep "") (split sep s) = s.
Proof.
  induction s as [|c s IH]; [done|]. simpl.
  destruct (Ascii.eqb c sep) eqn:Hc.
  - apply ascii_eqb_true in Hc as ->.
    destruct (split sep s) as [|h t] eqn:E; [by apply split_nonempty in E|].
    simpl in *. by rewrite IH.
  - destruct (split sep s) as [|h t] eqn:E; [by apply split_nonempty in E|].
    destruct t; simpl in *; [by rewrite IH|]. by rewrite app_cons, IH.
Qed.

(** The lines of a file, put one after the other, are its text. *)
Lemma join_readlines s : join "" (readlines s) = s.
Proof.
  induction s as [|c s IH]; [done|]. simpl.
  destruct (Ascii.eqb c "010") eqn:Hc.
  - destruct (readlines s) as [|h t]; simpl in *; [by rewrite <- IH|].
    by rewrite <- IH.
  - destruct (readlines s) as [|h t]; simpl in *; [by rewrite <- IH|].
    destruct t; simpl in *; [by rewrite IH|]. by rewrite app_cons, IH.
Qed.

(** [lstrip] removes a run of white space and stops at the first
    character that is not. *)
Lemma lstrip_spec s :
  ∃ w, s = w +:+ lstrip s ∧
       Forall (λ c, isspace c = true) (list_ascii_of_string w) ∧
       ∀ c r, lstrip s = String c r → isspace c = false.
Proof.
  induction s as [|c s (w & Hw & Hsp & Hhd)].
  - exists "". by repeat split.
  - simpl. destruct (isspace c) eqn:Hc.
    + exists (String c w). rewrite app_cons, <- Hw. repeat split; [|done].
      by constructor.
    + exists "". repeat split; [constructor|]. by intros ?? [= <- _].
Qed.

Lemma rstrip_spec s :
  ∃ w, s = rstrip s +:+ w ∧
       Forall (λ c, isspace c = true) (list_ascii_of_string w).
Proof.
  induction s as [|c s (w & Hw & Hsp)].
  - exists "". by split.
  - simpl. destruct (rstrip s) as [|d r] eqn:E.
    + rewrite app_empty_l in Hw. subst w. destruct (isspace c) eqn:Hc.
      * exists (String c s). split; [done|]. by constructor.
      * exists s. by split.
    + exists w. split; [|done]. by rewrite app_cons, <- Hw.
Qed.

Lemma rstrip_last s r c : rstrip s = r +:+ String c "" → isspace c = false.
Proof.
  revert r. induction s as [|c0 s IH]; intros r; simpl.
  - by destruct r.
  - destruct (rstrip s) as [|d r'] eqn:E.
    + destruct (isspace c0) eqn:Hc0; [by destruct r|].
      destruct r as [|? r]; [by intros [= <-]|].
      rewrite app_cons. intros [= _ H]. by destruct r.
    + destruct r as [|? r]; [done|].
      rewrite app_cons. intros [= _ H]. by apply (IH r).
Qed.

Lemma rstrip_head c s :
  isspace c = false → ∃ r, rstrip (String c s) = String c r.
Proof. intros Hc. simpl. destruct (rstrip s); rewrite ?Hc; eauto. Qed.

(** [strip] removes white space at both ends and nothing else. *)
Lemma strip_spec s :
  ∃ w1 w2, s = w1 +:+ strip s +:+ w2 ∧
    Forall (λ c, isspace c = true) (list_ascii_of_string w1) ∧
    Forall (λ c, isspace c = true) (list_ascii_of_string w2) ∧
    (∀ c r, strip s = String c r → isspace c = false) ∧
    (∀ r c, strip s = r +:+ String c "" → isspace c = false).
Proof.
  destruct (lstrip_spec s) as (w1 & Hs & Hw1 & Hhd).
  destruct (rstrip_spec (lstrip s)) as (w2 & Hl & Hw2).
  exists w1, w2. unfold strip. split; [by rewrite <- Hl|].
  repeat split; [done..| |].
  - intros c r Hr. destruct (lstrip s) as [|c' x] eqn:E; [done|].
    pose proof (Hhd c' x eq_refl) as Hc'.
    destruct (rstrip_head c' x Hc') as [y Hy]. rewrite Hy in Hr. by injection Hr as <- _.
  - intros r c. apply rstrip_last.
Qed.

End StrFacts.

(* ===================================================================== *)
(** ** Facts about paths *)
(* ===================================================================== *)

Module PathFacts.
Import Str StrFacts.

Lemma join_snoc sep ps x : ∃ pre, join sep (ps ++ [x])%list = pre +:+ x.
Proof.
  induction ps as [|p ps [pre IH]]; [by exists ""|].
  destruct ps as [|p' ps].
  - exists (p +:+ sep). simpl. by rewrite app_assoc.
  - exists (p +:+ sep +:+ pre). change (join sep ((p :: p' :: ps) ++ [x])%list)
      with (p +:+ sep +:+ join sep ((p' :: ps) ++ [x])%list).
    by rewrite IH, !app_assoc.
Qed.

Lemma path_str_parts r ps :
  ps ≠ [] → path_str (mkPath r ps) = r +:+ join "/" ps.
Proof. intros H. unfold path_str. simpl. by destruct r, ps. Qed.

(** A path that ends in a part is printed with that part last. *)
Lemma path_str_snoc r ps x : ∃ pre, path_str (mkPath r (ps ++ [x])) = pre +:+ x.
Proof.
  destruct (join_snoc "/" ps x) as [pre Hpre].
  exists (r +:+ pre). rewrite path_str_parts by (by destruct ps).
  by rewrite Hpre, app_assoc.
Qed.

Lemma not_same_file (q1 q2 : string) :
  q1 +:+ "metadata.yaml" ≠ q2 +:+ "Dockerfile".
Proof.
  intros H.
  assert (String.length q2 = String.length q1 + 3) as Hlen.
  { apply (f_equal String.length) in H. rewrite !length_app in H. simpl in H. lia. }
  apply (f_equal (slice_from (String.length q1 + 3))) in H.
  rewrite slice_from_app_add in H. rewrite <- Hlen, slice_from_app in H.
  discriminate.
Qed.

(** The metadata file and the Dockerfile of a connector are two files. *)
Lemma metadata_path_ne_dockerfile c :
  path_str (joinpath (code_directory c) METADATA_FILE_NAME)
  ≠ path_str (joinpath (code_directory c) "Dockerfile").
Proof.
  change (joinpath (code_directory c) METADATA_FILE_NAME)
    with (mkPath (root (code_directory c)) (parts (code_directory c) ++ ["metadata.yaml"])).
  change (joinpath (code_directory c) "Dockerfile")
    with (mkPath (root (code_directory c)) (parts (code_directory c) ++ ["Dockerfile"])).
  destruct (path_str_snoc (root (code_directory c)) (parts (code_directory c)) "metadata.yaml") as [q1 ->].
  destruct (path_str_snoc (root (code_directory c)) (parts (code_directory c)) "Dockerfile") as [q2 ->].
  apply not_same_file.
Qed.

End PathFacts.

(* ===================================================================== *)
(** ** Identity: type and name of a technical name *)
(* ===================================================================== *)

Section Identity.
Import Str StrFacts.

(** A technical name made of a hyphen-free type, a hyphen and any name
    is parsed back into that type and that name. *)
Lemma identity_of_parts (ty nm : string) :
  contains "-" ty = false →
  _get_type_and_name_from_technical_name (mkConnector (ty +:+ "-" +:+ nm))
  = Ok (ty, nm).
Proof.
  intros Hty. unfold _get_type_and_name_from_technical_name. simpl technical_name.
  assert (contains "-" (ty +:+ "-" +:+ nm) = true) as ->.
  { apply contains_spec. by exists ty, nm. }
  simpl negb. cbv iota.
  change (ty +:+ "-" +:+ nm) with (ty +:+ String "-" nm).
  rewrite (split_first _ _ _ Hty). simpl.
  by rewrite slice_from_app_add.
Qed.

Lemma identity_without_hyphen (t : string) :
  contains "-" t = false →
  _get_type_and_name_from_technical_name (mkConnector t)
  = Raise ConnectorInvalidNameError.
Proof. intros H. unfold _get_type_and_name_from_technical_name. simpl. by rewrite H. Qed.

(** C4. With a hyphen in the technical name, [connector_type] is the
    text before the first hyphen and [name] all that follows it, further
    hyphens included; without one, both properties raise
    [ConnectorInvalidNameError]. *)
Theorem identity_left_biased_split (t : string) :
  (contains "-" t = true →
     ∃ ty nm, t = ty +:+ "-" +:+ nm ∧ contains "-" ty = false ∧
       connector_type (mkConnector t) = Ok ty ∧
       name (mkConnector t) = Ok nm) ∧
  (contains "-" t = false →
     connector_type (mkConnector t) = Raise ConnectorInvalidNameError ∧
     name (mkConnector t) = Raise ConnectorInvalidNameError).
Proof.
  split.
  - intros H. destruct (contains_char_first _ _ H) as (ty & nm & -> & Hty).
    exists ty, nm. unfold connector_type, name.
    change (ty +:+ String "-" nm) with (ty +:+ "-" +:+ nm).
    by rewrite (identity_of_parts _ _ Hty).
  - intros H. unfold connector_type, name.
    by rewrite (identity_without_hyphen _ H).
Qed.

Lemma identity_left_biased_split_witness :
  (∃ ty nm, "destination-bigquery-denormalized" = ty +:+ "-" +:+ nm ∧
     contains "-" ty = false ∧
     connector_type (mkConnector "destination-bigquery-denormalized") = Ok ty ∧
     name (mkConnector "destination-bigquery-denormalized") = Ok nm) ∧
  connector_type (mkConnector "sourcefoo") = Raise ConnectorInvalidNameError ∧
  name (mkConnector "sourcefoo") = Raise ConnectorInvalidNameError.
Proof.
  split.
  - apply (proj1 (identity_left_biased_split "destination-bigquery-denormalized")).
    reflexivity.
  - apply (proj2 (identity_left_biased_split "sourcefoo")). reflexivity.
Defined.

Example scenario_A :
  connector_type (mkConnector "source-s3") = Ok "source" ∧
  name (mkConnector "source-s3") = Ok "s3" ∧
  path_str (code_directory (mkConnector "source-s3"))
  = "airbyte-integrations/connectors/source-s3".
Proof. by repeat split. Qed.

Example scenario_B :
  connector_type (mkConnector "destination-bigquery-denormalized") = Ok "destination" ∧
  name (mkConnector "destination-bigquery-denormalized") = Ok "bigquery-denormalized".
Proof. by split. Qed.

End Identity.

(* ===================================================================== *)
(** ** Metadata and version resolution *)
(* ===================================================================== *)


Section Resolution.
Import Str StrFacts PathFacts.

Variable safe_load : string → result pyval.
Variable py_format : pyval → string.

Lemma bind_Ok {A B} (f : A → result B) (a : A) : (Ok a ≫= f) = f a.
Proof. reflexivity. Qed.

(** [metadata] looks at one node of the file system only. *)
Lemma metadata_unfold (fs : gmap string fsnode) c :
  metadata safe_load fs c =
  match fs !! metadata_file c with
  | Some (RegularFile text) => doc ← safe_load text; getitem doc "data"
  | Some ProtectedFile => Raise PermissionError
  | _ => Ok PNone
  end.
Proof.
  unfold metadata, is_file, read_file.
  by destruct (fs !! _) as [[]|].
Qed.

Lemma metadata_agree (fs fs' : gmap string fsnode) c :
  fs' !! metadata_file c = fs !! metadata_file c →
  metadata safe_load fs' c = metadata safe_load fs c.
Proof. intros H. by rewrite !metadata_unfold, H. Qed.

(** C6. [metadata] is [None] when the metadata file is not there, the
    [data] entry of the loaded document when it is, and an error when the
    document has no [data] key. *)
Theorem metadata_absent_present_malformed (fs : gmap string fsnode) c :
  (fs !! metadata_file c = None → metadata safe_load fs c = Ok PNone) ∧
  (∀ text items data,
      fs !! metadata_file c = Some (RegularFile text) →
      safe_load text = Ok (PDict items) →
      dict_lookup "data" items = Some data →
      metadata safe_load fs c = Ok data) ∧
  (∀ text items,
      fs !! metadata_file c = Some (RegularFile text) →
      safe_load text = Ok (PDict items) →
      dict_lookup "data" items = None →
      metadata safe_load fs c = Raise KeyError).
Proof.
  rewrite metadata_unfold. repeat split.
  - by intros ->.
  - intros text items data -> Hdoc Hdata. simpl. rewrite Hdoc. simpl. by rewrite Hdata.
  - intros text items -> Hdoc Hdata. simpl. rewrite Hdoc. simpl. by rewrite Hdata.
Qed.

(** C1. With a metadata mapping that has a [dockerImageTag], [version] is
    the value stored there, whatever the Dockerfile is or says: the result
    is the same on every file system with the same metadata file, so also
    after the Dockerfile is rewritten or removed. *)
Theorem version_is_docker_image_tag (fs : gmap string fsnode) c items tag :
  metadata safe_load fs c = Ok (PDict items) →
  dict_lookup "dockerImageTag" items = Some tag →
  version safe_load fs c = Ok tag ∧
  (∀ fs' : gmap string fsnode,
      fs' !! metadata_file c = fs !! metadata_file c →
      version safe_load fs' c = Ok tag) ∧
  (∀ node, version safe_load (<[dockerfile_of c := node]> fs) c = Ok tag) ∧
  version safe_load (delete (dockerfile_of c) fs) c = Ok tag.
Proof.
  intros Hm Htag.
  assert (∀ fs' : gmap string fsnode,
             fs' !! metadata_file c = fs !! metadata_file c →
             version safe_load fs' c = Ok tag) as Hany.
  { intros fs' Hfs'. unfold version. rewrite (metadata_agree _ _ _ Hfs'), Hm.
    simpl. by rewrite Htag. }
  repeat split.
  - by apply Hany.
  - done.
  - intros node. apply Hany, lookup_insert_ne. apply not_eq_sym, metadata_path_ne_dockerfile.
  - apply Hany, lookup_delete_ne. apply not_eq_sym, metadata_path_ne_dockerfile.
Qed.


(** The scan stops at the first line with the marker and takes the second
    of its [=]-separated fields. *)
Lemma scan_version_label_first before line after :
  Forall (λ l, contains "io.airbyte.version" l = false) before →
  contains "io.airbyte.version" line = true →
  scan_version_label (before ++ line :: after)%list
  = strip <$> list_getitem (split "=" line) 1.
Proof.
  intros Hbefore Hline. induction Hbefore as [|l before Hl _ IH]; simpl.
  - by rewrite Hline.
  - by rewrite Hl.
Qed.

(** The second field of a line: the text between its first [=] and the
    next one, or the end of the line. *)
Lemma second_field a v tail :
  contains "=" a = false → contains "=" v = false →
  tail = "" ∨ startswith tail "=" = true →
  list_getitem (split "=" (a +:+ "=" +:+ v +:+ tail)) 1 = Ok v.
Proof.
  intros Ha Hv Htail.
  change (a +:+ "=" +:+ v +:+ tail) with (a +:+ String "=" (v +:+ tail)).
  rewrite (split_first _ _ _ Ha). destruct Htail as [->|Htail].
  - by rewrite app_empty_r, (split_no_sep _ _ Hv).
  - apply startswith_spec in Htail as [r ->].
    change (v +:+ "=" +:+ r) with (v +:+ String "=" r).
    by rewrite (split_first _ _ _ Hv).
Qed.


(** A line with an [=] is cut at its first [=] and at the next one, or at
    its end. *)
Lemma line_fields line :
  contains "=" line = true →
  ∃ a v tail, line = a +:+ "=" +:+ v +:+ tail ∧
              contains "=" a = false ∧ contains "=" v = false ∧
              (tail = "" ∨ startswith tail "=" = true).
Proof.
  intros (a & rest & -> & Ha)%contains_char_first.
  destruct (contains "=" rest) eqn:Hrest.
  - destruct (contains_char_first _ _ Hrest) as (v & w & -> & Hv).
    exists a, v, (String "=" w). repeat split; [done..|]. by right.
  - exists a, rest, "". rewrite app_empty_r. repeat split; [done..|]. by left.
Qed.

(** C3 (amended). With metadata absent, [version] is decided by the first
    line of the Dockerfile that has the marker. If that line holds an [=],
    it splits as [a=v] followed by nothing or by a further [=...], with no
    [=] in [a] and [v], and [version] is [v] stripped of surrounding white
    space: the text between the first [=] of the line and the next one, or
    the end of the line. If that line holds no [=], [version] raises
    [IndexError]. *)
Theorem version_from_dockerfile_label
    (fs : gmap string fsnode) c content before line after :
  metadata safe_load fs c = Ok PNone →
  fs !! dockerfile_of c = Some (RegularFile content) →
  readlines content = (before ++ line :: after)%list →
  Forall (λ l, contains "io.airbyte.version" l = false) before →
  contains "io.airbyte.version" line = true →
  (contains "=" line = true →
   ∃ a v tail, line = a +:+ "=" +:+ v +:+ tail ∧
               contains "=" a = false ∧ contains "=" v = false ∧
               (tail = "" ∨ startswith tail "=" = true) ∧
               version safe_load fs c = Ok (PStr (strip v))) ∧
  (∀ a v tail,
      line = a +:+ "=" +:+ v +:+ tail →
      contains "=" a = false →
      contains "=" v = false →
      tail = "" ∨ startswith tail "=" = true →
      version safe_load fs c = Ok (PStr (strip v))) ∧
  (contains "=" line = false →
   version safe_load fs c = Raise IndexError).
Proof.
  intros Hm Hfile Hlines Hbefore Hline.
  assert (version safe_load fs c
          = PStr <$> (strip <$> list_getitem (split "=" line) 1)) as ->.
  { unfold version, version_in_dockerfile_label, read_file.
    rewrite Hm, Hfile. simpl. rewrite Hlines.
    by rewrite (scan_version_label_first _ _ _ Hbefore Hline). }
  split; [|split].
  - intros (a & v & tail & -> & Ha & Hv & Htail)%line_fields.
    exists a, v, tail. repeat split; [done..|].
    by rewrite (second_field _ _ _ Ha Hv Htail).
  - intros a v tail -> Ha Hv Htail. by rewrite (second_field _ _ _ Ha Hv Htail).
  - intros Heq. by rewrite (split_no_sep _ _ Heq).
Qed.


(** C7 (amended). With metadata absent or a mapping, [release_stage],
    [allowed_hosts], [suggested_streams] and [supports_normalization] never
    raise and give [None] (or a falsy value) for a missing key;
    [normalization_repository] and [normalization_tag] give [None] when
    there is no [normalizationConfig], and for a [normalizationConfig]
    mapping they give the formatted entry when it is there and raise
    [KeyError] when it is not. *)
Theorem optional_accessors (fs : gmap string fsnode) c m :
  metadata safe_load fs c = Ok m →
  m = PNone ∨ (∃ items, m = PDict items) →
  let field k :=
    match m with
    | PDict items => default PNone (dict_lookup k items)
    | _ => PNone
    end in
  release_stage safe_load fs c = Ok (field "releaseStage") ∧
  allowed_hosts safe_load fs c = Ok (field "allowedHosts") ∧
  suggested_streams safe_load fs c = Ok (field "suggestedStreams") ∧
  (∃ s, supports_normalization safe_load fs c = Ok s ∧
        truthy s = negb (is_none (field "normalizationConfig"))) ∧
  (field "normalizationConfig" = PNone →
   normalization_repository safe_load py_format fs c = Ok PNone ∧
   normalization_tag safe_load py_format fs c = Ok PNone) ∧
  (∀ cfg, field "normalizationConfig" = PDict cfg →
     normalization_repository safe_load py_format fs c
     = match dict_lookup "normalizationRepository" cfg with
       | Some v => Ok (PStr (py_format v))
       | None => Raise KeyError
       end ∧
     normalization_tag safe_load py_format fs c
     = match dict_lookup "normalizationTag" cfg with
       | Some v => Ok (PStr (py_format v))
       | None => Raise KeyError
       end).
Proof.
  intros Hm Hshape field.
  unfold release_stage, allowed_hosts, suggested_streams,
    normalization_repository, normalization_tag, supports_normalization.
  rewrite Hm. destruct Hshape as [->|[items ->]].
  - simpl. repeat split; try done. by exists PNone.
  - destruct items as [|item items].
    + simpl. repeat split; try done. by exists (PDict []).
    + assert (truthy (PDict (item :: items)) = true) as Ht by done.
      subst field. cbv beta. clear Hm.
      generalize dependent (item :: items). intros its Ht.
      repeat (rewrite bind_Ok || rewrite Ht || cbn [py_get]).
      split; [done|]. split; [done|]. split; [done|]. split; [by eexists|].
      destruct (dict_lookup "normalizationConfig" its) as [v|] eqn:E;
        cbn [default is_none negb truthy]; [|done].
      split.
      * intros Hv. simpl in Hv. by subst v.
      * intros cfg Hv. simpl in Hv. subst v. cbn [is_none negb].
        repeat (rewrite bind_Ok || rewrite E || cbn [getitem]).
        by split; destruct (dict_lookup _ cfg).
Qed.

End Resolution.

Lemma metadata_absent_present_malformed_witness :
  metadata Fixtures.safe_load Fixtures.fs_empty Fixtures.s3 = Ok PNone ∧
  metadata Fixtures.safe_load Fixtures.fs_untagged Fixtures.s3
  = Ok (PDict [(PStr "releaseStage", PStr "alpha")]) ∧
  metadata Fixtures.safe_load Fixtures.fs_no_data Fixtures.s3 = Raise KeyError.
Proof.
  split; [|split].
  - apply (proj1 (metadata_absent_present_malformed Fixtures.safe_load Fixtures.fs_empty Fixtures.s3)).
    reflexivity.
  - eapply (proj1 (proj2 (metadata_absent_present_malformed Fixtures.safe_load
                            Fixtures.fs_untagged Fixtures.s3))); reflexivity.
  - eapply (proj2 (proj2 (metadata_absent_present_malformed Fixtures.safe_load
                            Fixtures.fs_no_data Fixtures.s3))); reflexivity.
Defined.

Lemma version_is_docker_image_tag_witness :
  version Fixtures.safe_load Fixtures.fs_tagged Fixtures.s3 = Ok (PStr "0.2.1") ∧
  version Fixtures.safe_load (delete Fixtures.dockerfile Fixtures.fs_tagged) Fixtures.s3
  = Ok (PStr "0.2.1").
Proof.
  pose proof (version_is_docker_image_tag Fixtures.safe_load Fixtures.fs_tagged Fixtures.s3
                [(PStr "dockerImageTag", PStr "0.2.1"); (PStr "releaseStage", PStr "alpha")]
                (PStr "0.2.1") eq_refl eq_refl) as (H1 & _ & _ & H4).
  split; [exact H1 | exact H4].
Defined.



(** C3 as stated fails when the value holds an [=]: on the line
    [LABEL io.airbyte.version=1.2.3=beta] everything after the [=] sign,
    trimmed, is ["1.2.3=beta"], and [version] is ["1.2.3"]. *)
Lemma version_label_cut_at_next_equals :
  metadata Fixtures.safe_load Fixtures.fs_equals Fixtures.s3 = Ok PNone ∧
  Fixtures.fs_equals !! dockerfile_of Fixtures.s3
  = Some (RegularFile Fixtures.equals_dockerfile) ∧
  Str.readlines Fixtures.equals_dockerfile
  = ["FROM airbyte/python-base
"; "LABEL io.airbyte.version=1.2.3=beta
"] ∧
  Str.strip (Str.slice_from (String.length "LABEL io.airbyte.version=")
                            "LABEL io.airbyte.version=1.2.3=beta
") = "1.2.3=beta" ∧
  version Fixtures.safe_load Fixtures.fs_equals Fixtures.s3 = Ok (PStr "1.2.3") ∧
  version Fixtures.safe_load Fixtures.fs_equals Fixtures.s3 ≠ Ok (PStr "1.2.3=beta").
Proof. by vm_compute. Qed.

Lemma version_from_dockerfile_label_witness :
  version Fixtures.safe_load Fixtures.fs_labelled Fixtures.s3 = Ok (PStr "1.2.3") ∧
  version Fixtures.safe_load Fixtures.fs_equals Fixtures.s3 = Ok (PStr "1.2.3") ∧
  version Fixtures.safe_load Samples.fs_commented Fixtures.s3 = Raise IndexError.
Proof.
  split; [|split].
  - apply (proj1 (proj2 (version_from_dockerfile_label Fixtures.safe_load
             Fixtures.fs_labelled Fixtures.s3 Fixtures.labelled_dockerfile
             ["FROM airbyte/python-base
"; "LABEL io.airbyte.name=airbyte/source-s3
"]
             "LABEL io.airbyte.version=1.2.3
" [] eq_refl eq_refl eq_refl ltac:(repeat constructor) eq_refl))
             "LABEL io.airbyte.version" "1.2.3
" "").
    + reflexivity.
    + reflexivity.
    + reflexivity.
    + by left.
  - apply (proj1 (proj2 (version_from_dockerfile_label Fixtures.safe_load
             Fixtures.fs_equals Fixtures.s3 Fixtures.equals_dockerfile
             ["FROM airbyte/python-base
"]
             "LABEL io.airbyte.version=1.2.3=beta
" [] eq_refl eq_refl eq_refl ltac:(repeat constructor) eq_refl))
             "LABEL io.airbyte.version" "1.2.3" "=beta
").
    + reflexivity.
    + reflexivity.
    + reflexivity.
    + by right.
  - apply (proj2 (proj2 (version_from_dockerfile_label Fixtures.safe_load
             Samples.fs_commented Fixtures.s3 Samples.commented_dockerfile []
             "# io.airbyte.version is set below
" ["LABEL io.airbyte.version=1.0.0
"] eq_refl eq_refl eq_refl ltac:(constructor) eq_refl))).
    reflexivity.
Defined.



(** C7 as stated fails for a [normalizationConfig] that lacks
    [normalizationRepository]: the accessor raises [KeyError]. *)
Lemma normalization_repository_key_error :
  metadata Fixtures.safe_load Fixtures.fs_half_normalization Fixtures.s3
  = Ok (PDict [(PStr "dockerImageTag", PStr "0.2.1");
               (PStr "normalizationConfig",
                PDict [(PStr "normalizationTag", PStr "0.4.0")])]) ∧
  normalization_repository Fixtures.safe_load Fixtures.py_format
    Fixtures.fs_half_normalization Fixtures.s3 = Raise KeyError ∧
  normalization_tag Fixtures.safe_load Fixtures.py_format
    Fixtures.fs_half_normalization Fixtures.s3 = Ok (PStr "0.4.0").
Proof. by vm_compute. Qed.

Lemma optional_accessors_witness :
  (release_stage Fixtures.safe_load Fixtures.fs_empty Fixtures.s3 = Ok PNone ∧
   normalization_repository Fixtures.safe_load Fixtures.py_format
     Fixtures.fs_empty Fixtures.s3 = Ok PNone) ∧
  (release_stage Fixtures.safe_load Fixtures.fs_untagged Fixtures.s3 = Ok (PStr "alpha") ∧
   allowed_hosts Fixtures.safe_load Fixtures.fs_untagged Fixtures.s3 = Ok PNone) ∧
  normalization_repository Fixtures.safe_load Fixtures.py_format
    Fixtures.fs_half_normalization Fixtures.s3 = Raise KeyError.
Proof.
  split; [|split].
  - pose proof (optional_accessors Fixtures.safe_load Fixtures.py_format
                  Fixtures.fs_empty Fixtures.s3 PNone eq_refl (or_introl eq_refl))
      as (H1 & _ & _ & _ & H5 & _).
    split; [exact H1 | exact (proj1 (H5 eq_refl))].
  - pose proof (optional_accessors Fixtures.safe_load Fixtures.py_format
                  Fixtures.fs_untagged Fixtures.s3
                  (PDict [(PStr "releaseStage", PStr "alpha")]) eq_refl
                  (or_intror (ex_intro _ _ eq_refl)))
      as (H1 & H2 & _).
    split; [exact H1 | exact H2].
  - pose proof (optional_accessors Fixtures.safe_load Fixtures.py_format
                  Fixtures.fs_half_normalization Fixtures.s3
                  (PDict [(PStr "dockerImageTag", PStr "0.2.1");
                          (PStr "normalizationConfig",
                           PDict [(PStr "normalizationTag", PStr "0.4.0")])])
                  eq_refl (or_intror (ex_intro _ _ eq_refl)))
      as (_ & _ & _ & _ & _ & H6).
    exact (proj1 (H6 _ eq_refl)).
Defined.

(* ===================================================================== *)
(** ** Change detection and the scan of released connectors *)
(* ===================================================================== *)

Module DetectFacts.
Import Str StrFacts.

(** A traversal succeeds when every step does. *)
Lemma mapM_Ok {A B} (f : A → result B) (l : list A) :
  (∀ x, x ∈ l → ∃ y, f x = Ok y) →
  ∃ ys, mapM f l = Ok ys ∧ Forall2 (λ x y, f x = Ok y) l ys.
Proof.
  induction l as [|x l IH]; intros Hf.
  - exists []. by split.
  - destruct (Hf x) as [y Hy]; [by left|].
    destruct IH as (ys & Hys & Hall); [intros z Hz; apply Hf; by right|].
    exists (y :: ys). split; [|by constructor].
    simpl. rewrite Hy. simpl. by rewrite Hys.
Qed.

Lemma split_prepend sep a r :
  contains (String sep "") a = false →
  split sep (a +:+ r)
  = (a +:+ hd "" (split sep r)) :: tl (split sep r).
Proof.
  intros Ha. induction a as [|c a IH]; simpl.
  - rewrite !app_empty_l. destruct (split sep r) eqn:E; [by apply split_nonempty in E|done].
  - rewrite contains_char_cons, orb_false_iff in Ha. destruct Ha as [Hc Ha].
    rewrite Ascii.eqb_sym, Hc, (IH Ha). by rewrite app_cons.
Qed.

(** Under the source prefix the third component is always there: it is
    ["source-"] followed by the rest of the path up to its next slash. *)
Lemma connector_name_of_source_path r :
  get_connector_name_from_path (SOURCE_CONNECTOR_PATH_PREFIX +:+ r)
  = Ok ("source-" +:+ hd "" (split "/" r)).
Proof.
  unfold get_connector_name_from_path.
  change (SOURCE_CONNECTOR_PATH_PREFIX +:+ r)
    with ("airbyte-integrations" +:+ String "/" ("connectors" +:+ String "/" ("source-" +:+ r))).
  rewrite !split_first by reflexivity.
  by rewrite split_prepend.
Qed.

Lemma name_from_path_lookup p n :
  get_connector_name_from_path p = Ok n ↔ split "/" p !! 2 = Some n.
Proof.
  unfold get_connector_name_from_path, list_getitem.
  destruct (split "/" p !! 2); split; congruence.
Qed.

(** The projection shared by the two change detectors: on paths kept by
    a filter at least as strict as the source prefix, it succeeds and
    gives the connectors named by the third component of a kept path. *)
Lemma project_paths (P : string → bool) (l : list string) :
  (∀ p, P p = true → startswith p SOURCE_CONNECTOR_PATH_PREFIX = true) →
  ∃ S : gset Connector,
    (names ← mapM get_connector_name_from_path
               (elements (list_to_set (filter (λ p, P p) l) : gset string));
     Ok (list_to_set (mkConnector <$> names))) = Ok S ∧
    ∀ c, c ∈ S ↔
         ∃ p, p ∈ l ∧ P p = true ∧ split "/" p !! 2 = Some (technical_name c).
Proof.
  intros HP.
  set (kept := elements (list_to_set (filter (λ p, P p) l) : gset string)).
  assert (∀ p, p ∈ kept ↔ p ∈ l ∧ P p = true) as Hkept.
  { intros p. unfold kept.
    rewrite elem_of_elements, elem_of_list_to_set, list_elem_of_filter, Is_true_true.
    tauto. }
  destruct (mapM_Ok get_connector_name_from_path kept) as (names & -> & Hall).
  { intros p [_ Hp]%Hkept. apply HP, startswith_spec in Hp as [r ->].
    eexists. apply connector_name_of_source_path. }
  eexists. split; [done|]. intros [n].
  rewrite elem_of_list_to_set, list_elem_of_fmap. simpl. split.
  - intros (n' & [= ->] & Hn'). apply list_elem_of_lookup in Hn' as [i Hi].
    destruct (Forall2_lookup_r _ _ _ _ _ Hall Hi) as (p & Hp & Hpn).
    exists p. apply list_elem_of_lookup_2, Hkept in Hp as [? ?].
    by rewrite <- name_from_path_lookup.
  - intros (p & Hp & HPp & Hn). exists n. split; [done|].
    assert (p ∈ kept) as [i Hi]%list_elem_of_lookup by (by apply Hkept).
    destruct (Forall2_lookup_l _ _ _ _ _ Hall Hi) as (n' & Hn' & Hpn').
    apply name_from_path_lookup in Hn. rewrite Hn in Hpn'. injection Hpn' as <-.
    by eapply list_elem_of_lookup_2.
Qed.

(** The connector of a metadata file [<d>/<n>/metadata.yaml] is named
    [<n>], the directory that holds the file. *)
Lemma parent_name_of_metadata_file d n :
  is_part n = true → contains "/" n = false →
  path_name (parent (parse_path (d +:+ "/" +:+ n +:+ "/" +:+ METADATA_FILE_NAME))) = n.
Proof.
  intros Hpart Hn. unfold path_name, parent, parse_path. simpl parts.
  change (d +:+ "/" +:+ n +:+ "/" +:+ METADATA_FILE_NAME)
    with (d +:+ String "/" (n +:+ String "/" "metadata.yaml")).
  rewrite !split_app, (split_no_sep _ _ Hn), !filter_app.
  rewrite (filter_cons_True _ n) by (by rewrite Hpart).
  change (filter _ [] ++ filter _ (split "/" "metadata.yaml"))%list
    with ["metadata.yaml"].
  rewrite removelast_app by done. simpl removelast.
  apply last_last.
Qed.

End DetectFacts.

Section Detection.
Import Str StrFacts DetectFacts.

Variable DIFFED_BRANCH : string.
Variable git_diff : list string → result string.

(** C8. The acceptance-config detector keeps the changed paths that start
    with the source-connector prefix and end with the acceptance-test-config
    file name, and returns the connectors named by the third component of
    the kept paths; on the two paths of scenario C it returns
    [{Connector("source-foo")}]. *)
Theorem acceptance_config_filter diff_regex out :
  git_diff (diff_command_args DIFFED_BRANCH diff_regex) = Ok out →
  (∃ S, get_changed_acceptance_test_config DIFFED_BRANCH git_diff diff_regex = Ok S ∧
        ∀ c, c ∈ S ↔
             ∃ p, p ∈ split "010" out ∧
                  startswith p SOURCE_CONNECTOR_PATH_PREFIX = true ∧
                  endswith p ACCEPTANCE_TEST_CONFIG_FILE_NAME = true ∧
                  split "/" p !! 2 = Some (technical_name c)) ∧
  (out = Fixtures.scenario_C_diff →
   get_changed_acceptance_test_config DIFFED_BRANCH git_diff diff_regex
   = Ok {[ mkConnector "source-foo" ]}).
Proof.
  intros Hout. unfold get_changed_acceptance_test_config. rewrite Hout, bind_Ok.
  split.
  - destruct (project_paths
                (λ p, startswith p SOURCE_CONNECTOR_PATH_PREFIX
                      && endswith p ACCEPTANCE_TEST_CONFIG_FILE_NAME)
                (split "010" out)) as (S & HS & Hmem).
    { by intros p [? _]%andb_true_iff. }
    exists S. split; [exact HS|]. intros c. rewrite Hmem.
    split; intros (p & Hp & H); exists p; (split; [done|]).
    + rewrite andb_true_iff in H. tauto.
    + rewrite andb_true_iff. tauto.
  - intros ->. by vm_compute.
Qed.

(** C10. On one and the same diff output, with no content filter, every
    connector reported by the acceptance-config detector is reported by the
    changed-connectors detector. *)
Theorem acceptance_config_subset out :
  git_diff ["--name-only"; DIFFED_BRANCH] = Ok out →
  ∃ A B, get_changed_acceptance_test_config DIFFED_BRANCH git_diff None = Ok A ∧
         get_changed_connectors DIFFED_BRANCH git_diff = Ok B ∧
         A ⊆ B.
Proof.
  intros Hout.
  unfold get_changed_acceptance_test_config, get_changed_connectors, diff_command_args.
  rewrite Hout, !bind_Ok.
  destruct (project_paths
              (λ p, startswith p SOURCE_CONNECTOR_PATH_PREFIX
                    && endswith p ACCEPTANCE_TEST_CONFIG_FILE_NAME)
              (split "010" out)) as (A & HA & HmemA).
  { by intros p [? _]%andb_true_iff. }
  destruct (project_paths
              (λ p, startswith p SOURCE_CONNECTOR_PATH_PREFIX)
              (split "010" out)) as (B & HB & HmemB); [done|].
  exists A, B. split; [exact HA|]. split; [exact HB|].
  intros c (p & Hp & [Hpre _]%andb_true_iff & Hn)%HmemA.
  apply HmemB. by exists p.
Qed.

End Detection.

Section Scan.
Import Str StrFacts DetectFacts.

Variable glob : string → list string.

(** C9. The scan returns the connectors named after the parent directory
    of the metadata files found, those with the scaffold marker in their
    path left out; on the three files of scenario D it returns
    [{Connector("source-a"), Connector("destination-c")}]. *)
Theorem released_connectors_scan :
  (∀ c, c ∈ get_all_released_connectors glob ↔
        ∃ f, f ∈ glob "airbyte-integrations/connectors/**/metadata.yaml" ∧
             contains "-scaffold-" f = false ∧
             c = mkConnector (path_name (parent (parse_path f)))) ∧
  (∀ d n, is_part n = true → contains "/" n = false →
          path_name (parent (parse_path (d +:+ "/" +:+ n +:+ "/" +:+ METADATA_FILE_NAME)))
          = n) ∧
  (glob "airbyte-integrations/connectors/**/metadata.yaml" = Fixtures.scenario_D_files →
   get_all_released_connectors glob
   = {[ mkConnector "source-a"; mkConnector "destination-c" ]}).
Proof.
  split; [|split].
  - intros c. unfold get_all_released_connectors.
    rewrite elem_of_list_to_set, list_elem_of_fmap.
    split.
    + intros (f & -> & [Hf ?]%list_elem_of_filter). exists f.
      by apply Is_true_true, negb_true_iff in Hf.
    + intros (f & ? & Hf & ->). exists f. split; [done|].
      apply list_elem_of_filter. split; [|done]. by rewrite Hf.
  - apply parent_name_of_metadata_file.
  - intros Hglob. unfold get_all_released_connectors. rewrite Hglob. by vm_compute.
Qed.

End Scan.

Lemma acceptance_config_filter_witness :
  get_changed_acceptance_test_config "origin/master" Fixtures.git_diff (Some "hello")
  = Ok {[ mkConnector "source-foo" ]}.
Proof.
  apply (proj2 (acceptance_config_filter "origin/master" Fixtures.git_diff (Some "hello")
                  Fixtures.scenario_C_diff eq_refl)).
  reflexivity.
Defined.

Lemma acceptance_config_subset_witness :
  ∃ A B, get_changed_acceptance_test_config "origin/master" Fixtures.git_diff None = Ok A ∧
         get_changed_connectors "origin/master" Fixtures.git_diff = Ok B ∧
         A ⊆ B.
Proof.
  apply (acceptance_config_subset "origin/master" Fixtures.git_diff Fixtures.scenario_C_diff).
  reflexivity.
Defined.

Lemma released_connectors_scan_witness :
  path_name (parent (parse_path "airbyte-integrations/connectors/source-a/metadata.yaml"))
  = "source-a" ∧
  get_all_released_connectors Fixtures.glob
  = {[ mkConnector "source-a"; mkConnector "destination-c" ]}.
Proof.
  split.
  - apply (proj1 (proj2 (released_connectors_scan Fixtures.glob))
             "airbyte-integrations/connectors" "source-a"); reflexivity.
  - apply (proj2 (proj2 (released_connectors_scan Fixtures.glob))). reflexivity.
Defined.

(* ===================================================================== *)
(** ** Further facts about strings and paths *)
(* ===================================================================== *)

Module MoreStrFacts.
Import Str StrFacts.

Lemma contains_char_app c a b :
  contains (String c "") (a +:+ b)
  = contains (String c "") a || contains (String c "") b.
Proof.
  induction a as [|d a IH]; [done|].
  by rewrite app_cons, !contains_char_cons, IH, orb_assoc.
Qed.

(** A pattern found in a part of a string is found in the string. *)
Lemma contains_inside sub a s b :
  contains sub s = true → contains sub (a +:+ s +:+ b) = true.
Proof.
  intros (x & y & ->)%contains_spec. apply contains_spec.
  exists (a +:+ x), (y +:+ b). by rewrite !app_assoc.
Qed.

(** The first field of a split starts the string. *)
Lemma split_head_prefix sep s h t :
  split sep s = h :: t → ∃ rest, s = h +:+ rest.
Proof.
  intros E. pose proof (join_split sep s) as Hj. rewrite E in Hj.
  destruct t as [|h' t]; simpl in Hj.
  - exists "". by rewrite app_empty_r.
  - by eexists.
Qed.

(** Every field of a split lies inside the string. *)
Lemma split_field_inside sep s f :
  f ∈ split sep s → ∃ a b, s = a +:+ f +:+ b.
Proof.
  revert f. induction s as [|c s IH]; intros f; simpl.
  - intros ->%list_elem_of_singleton. by exists "", "".
  - destruct (Ascii.eqb c sep) eqn:Hc.
    + intros [->|Hf]%elem_of_cons.
      * by exists "", (String c s).
      * destruct (IH _ Hf) as (a & b & ->). by exists (String c a), b.
    + destruct (split sep s) as [|h t] eqn:E; [by apply split_nonempty in E|].
      intros [->|Hf]%elem_of_cons.
      * destruct (split_head_prefix _ _ _ _ E) as [rest ->]. by exists "", rest.
      * destruct (IH f) as (a & b & ->); [by right|]. by exists (String c a), b.
Qed.

(** Splitting undoes joining when no field holds the separator. *)
Lemma split_join sep fields :
  fields ≠ [] →
  Forall (λ f, contains (String sep "") f = false) fields →
  split sep (join (String sep "") fields) = fields.
Proof.
  intros Hne Hall. induction Hall as [|f fields Hf Hall IH]; [done|].
  destruct fields as [|g fields]; [by apply split_no_sep|].
  change (join (String sep "") (f :: g :: fields))
    with (f +:+ String sep (join (String sep "") (g :: fields))).
  rewrite (split_first _ _ _ Hf). by rewrite IH.
Qed.

End MoreStrFacts.

Module MorePathFacts.
Import Str StrFacts MoreStrFacts PathFacts.

Lemma is_part_spec s : is_part s = true ↔ s ≠ "" ∧ s ≠ ".".
Proof.
  unfold is_part. rewrite andb_true_iff, !negb_true_iff.
  by rewrite <- !(not_true_iff_false (String.eqb _ _)), !string_eqb_true.
Qed.

Lemma is_part_long s : (2 ≤ String.length s)%nat → is_part s = true.
Proof. intros H. apply is_part_spec. split; intros ->; simpl in H; lia. Qed.

(** A relative path written [./f1/.../fn] has the parts among [f1 ... fn]
    that are neither empty nor a dot. *)
Lemma parse_dot_path fields :
  Forall (λ f, contains "/" f = false) fields →
  parse_path (join "/" ("." :: fields)) = mkPath "" (filter (λ f, is_part f) fields).
Proof.
  intros Hall. destruct fields as [|g fields]; [done|].
  unfold parse_path.
  rewrite (split_join "/" ("." :: g :: fields)) by (done || by constructor).
  done.
Qed.

Lemma path_str_relative ps : ps ≠ [] → path_str (mkPath "" ps) = join "/" ps.
Proof. intros H. by rewrite path_str_parts. Qed.

End MorePathFacts.

Section Layout.
Import Str StrFacts MoreStrFacts PathFacts MorePathFacts.

(** X1. The two halves of a technical name put it back together: when
    [connector_type] and [name] return, the technical name is the type, a
    hyphen and the name, and the type has no hyphen. *)
Theorem identity_round_trip c ty nm :
  connector_type c = Ok ty → name c = Ok nm →
  technical_name c = ty +:+ "-" +:+ nm ∧ contains "-" ty = false.
Proof.
  destruct c as [t]. unfold connector_type, name. simpl technical_name.
  destruct (contains "-" t) eqn:Ht.
  - destruct (contains_char_first _ _ Ht) as (a & b & -> & Ha).
    change (a +:+ String "-" b) with (a +:+ "-" +:+ b).
    rewrite (identity_of_parts _ _ Ha). by intros [= <-] [= <-].
  - by rewrite (identity_without_hyphen _ Ht).
Qed.

(** X2. [get_connector_name_from_path] needs two slashes: a path with none
    or one raises [IndexError], and a path [a/b/r] gives the text of [r] up
    to its next slash. *)
Theorem connector_name_index_bounds :
  (∀ p, contains "/" p = false →
        get_connector_name_from_path p = Raise IndexError) ∧
  (∀ a b, contains "/" a = false → contains "/" b = false →
          get_connector_name_from_path (a +:+ "/" +:+ b) = Raise IndexError) ∧
  (∀ a b r, contains "/" a = false → contains "/" b = false →
            get_connector_name_from_path (a +:+ "/" +:+ b +:+ "/" +:+ r)
            = Ok (hd "" (split "/" r))).
Proof.
  unfold get_connector_name_from_path. split; [|split].
  - intros p Hp. by rewrite (split_no_sep _ _ Hp).
  - intros a b Ha Hb. change (a +:+ "/" +:+ b) with (a +:+ String "/" b).
    by rewrite (split_first _ _ _ Ha), (split_no_sep _ _ Hb).
  - intros a b r Ha Hb.
    change (a +:+ "/" +:+ b +:+ "/" +:+ r) with (a +:+ String "/" (b +:+ String "/" r)).
    rewrite (split_first _ _ _ Ha), (split_first _ _ _ Hb).
    destruct (split "/" r) eqn:E; [by apply split_nonempty in E|done].
Qed.

(** X3. The directory of a connector and the files read from it: for a
    technical name that is one plain path component, the code directory is
    [airbyte-integrations/connectors/<technical_name>] and the metadata
    file, the Dockerfile and the acceptance-test config lie directly in it. *)
Theorem code_directory_layout t :
  contains "/" t = false → is_part t = true →
  code_directory (mkConnector t)
  = mkPath "" ["airbyte-integrations"; "connectors"; t] ∧
  path_str (code_directory (mkConnector t))
  = "airbyte-integrations/connectors/" +:+ t ∧
  metadata_file (mkConnector t)
  = "airbyte-integrations/connectors/" +:+ t +:+ "/metadata.yaml" ∧
  dockerfile_of (mkConnector t)
  = "airbyte-integrations/connectors/" +:+ t +:+ "/Dockerfile" ∧
  path_str (acceptance_test_config_path (mkConnector t))
  = "airbyte-integrations/connectors/" +:+ t +:+ "/acceptance-test-config.yml".
Proof.
  intros Hslash Hpart.
  assert (code_directory (mkConnector t)
          = mkPath "" ["airbyte-integrations"; "connectors"; t]) as Hdir.
  { unfold code_directory. simpl technical_name.
    change ("./airbyte-integrations/connectors/" +:+ t)
      with (join "/" ["."; "airbyte-integrations"; "connectors"; t]).
    rewrite parse_dot_path by (by repeat constructor).
    f_equal. rewrite !filter_cons_True by done.
    by rewrite (filter_cons_True _ t) by (by rewrite Hpart). }
  unfold acceptance_test_config_path. rewrite Hdir.
  split; [done|]. split; [done|].
  repeat split; unfold path_str, joinpath; simpl; by rewrite !app_assoc.
Qed.

(** X4. The documentation file of a connector [<type>-<name>] is
    [docs/integrations/<type>s/<name>.md]; a technical name without a hyphen
    has none, the property raises [ConnectorInvalidNameError]. *)
Theorem documentation_file_path_layout :
  (∀ ty nm, contains "-" ty = false → contains "/" ty = false →
            contains "/" nm = false →
            ∃ p, documentation_file_path (mkConnector (ty +:+ "-" +:+ nm)) = Ok p ∧
                 path_str p = "docs/integrations/" +:+ ty +:+ "s/" +:+ nm +:+ ".md") ∧
  (∀ t, contains "-" t = false →
        documentation_file_path (mkConnector t) = Raise ConnectorInvalidNameError).
Proof.
  split.
  - intros ty nm Hty Hsl Hnm.
    exists (parse_path ("./docs/integrations/" +:+ ty +:+ "s/" +:+ nm +:+ ".md")). split.
    + unfold documentation_file_path, connector_type, name.
      by rewrite (identity_of_parts _ _ Hty).
    + assert ("./docs/integrations/" +:+ ty +:+ "s/" +:+ nm +:+ ".md"
              = join "/" ["."; "docs"; "integrations"; ty +:+ "s"; nm +:+ ".md"]) as ->.
      { simpl. by rewrite !app_assoc. }
      rewrite parse_dot_path.
      2:{ repeat constructor.
          - by rewrite contains_char_app, Hsl.
          - by rewrite contains_char_app, Hnm. }
      rewrite !filter_cons_True by done.
      rewrite (filter_cons_True _ (ty +:+ "s")).
      2:{ apply Is_true_true. destruct ty; [done|].
          apply is_part_long. rewrite length_app. simpl. lia. }
      rewrite (filter_cons_True _ (nm +:+ ".md")).
      2:{ apply Is_true_true, is_part_long. rewrite length_app. simpl. lia. }
      rewrite path_str_relative by done. simpl. by rewrite !app_assoc.
  - intros t Ht. unfold documentation_file_path, connector_type.
    by rewrite (identity_without_hyphen _ Ht).
Qed.

End Layout.

Lemma identity_round_trip_witness :
  technical_name (mkConnector "destination-bigquery-denormalized")
  = "destination" +:+ "-" +:+ "bigquery-denormalized" ∧
  Str.contains "-" "destination" = false.
Proof.
  apply (identity_round_trip (mkConnector "destination-bigquery-denormalized")
           "destination" "bigquery-denormalized"); reflexivity.
Defined.

Lemma connector_name_index_bounds_witness :
  get_connector_name_from_path "README.md" = Raise IndexError ∧
  get_connector_name_from_path "docs/README.md" = Raise IndexError ∧
  get_connector_name_from_path "airbyte-integrations/connectors/source-foo/setup.py"
  = Ok "source-foo".
Proof.
  split; [|split].
  - apply (proj1 connector_name_index_bounds). reflexivity.
  - apply (proj1 (proj2 connector_name_index_bounds) "docs" "README.md"); reflexivity.
  - apply (proj2 (proj2 connector_name_index_bounds)
             "airbyte-integrations" "connectors" "source-foo/setup.py"); reflexivity.
Defined.

Lemma code_directory_layout_witness :
  path_str (code_directory (mkConnector "source-s3"))
  = "airbyte-integrations/connectors/source-s3".
Proof.
  apply (proj1 (proj2 (code_directory_layout "source-s3" eq_refl eq_refl))).
Defined.

Lemma documentation_file_path_layout_witness :
  (∃ p, documentation_file_path (mkConnector "source-s3") = Ok p ∧
        path_str p = "docs/integrations/sources/s3.md") ∧
  documentation_file_path (mkConnector "sourcefoo") = Raise ConnectorInvalidNameError.
Proof.
  split.
  - apply (proj1 documentation_file_path_layout "source" "s3"); reflexivity.
  - apply (proj2 documentation_file_path_layout). reflexivity.
Defined.

(* ===================================================================== *)
(** ** More on metadata, version and language *)
(* ===================================================================== *)

Module AncestorFacts.
Import Str StrFacts MoreStrFacts PathFacts.

Lemma length_join_take sep k (l : list string) :
  (String.length (join sep (take k l)) ≤ String.length (join sep l))%nat.
Proof.
  revert k. induction l as [|x l IH]; intros k; [by rewrite take_nil|].
  destruct k as [|k]; [simpl; lia|].
  destruct l as [|y l]; [destruct k; simpl; lia|].
  specialize (IH k). rewrite firstn_cons.
  change (join sep (x :: y :: l)) with (x +:+ sep +:+ join sep (y :: l)).
  destruct (take k (y :: l)) as [|z t] eqn:E.
  - change (join sep [x]) with x. rewrite !length_app. lia.
  - change (join sep (x :: z :: t)) with (x +:+ sep +:+ join sep (z :: t)).
    rewrite !length_app. lia.
Qed.

Lemma length_join_snoc sep (l : list string) x :
  (String.length (join sep l) + String.length x
   ≤ String.length (join sep (l ++ [x])))%nat.
Proof.
  induction l as [|y l IH]; [simpl; lia|].
  destruct l as [|z l].
  - change (join sep ([y] ++ [x])) with (y +:+ sep +:+ x).
    change (join sep [y]) with y. rewrite !length_app. lia.
  - change (join sep ((y :: z :: l) ++ [x]))
      with (y +:+ sep +:+ join sep ((z :: l) ++ [x])).
    change (join sep (y :: z :: l)) with (y +:+ sep +:+ join sep (z :: l)).
    rewrite !length_app. lia.
Qed.

(** A path above a file of a directory is printed no longer than the
    directory. *)
Lemma ancestor_length r ps x q :
  q ∈ ancestors (mkPath r (ps ++ [x])) →
  (String.length (path_str q)
   ≤ String.length r + String.length (join "/" ps))%nat.
Proof.
  unfold ancestors. simpl. rewrite List.length_app. simpl.
  replace (length ps + 1 - 1) with (length ps) by lia.
  intros (k & -> & Hk)%list_elem_of_fmap. apply elem_of_seq in Hk.
  rewrite take_app_le by lia.
  destruct (take k ps) as [|y t] eqn:E.
  { destruct ps; [simpl in Hk; lia|]. destruct k; [lia|done]. }
  rewrite path_str_parts by done. rewrite <- E, length_app.
  pose proof (length_join_take "/" k ps). lia.
Qed.

(** No path above the Dockerfile is the metadata file. *)
Lemma ancestor_not_metadata c q :
  q ∈ ancestors (joinpath (code_directory c) "Dockerfile") →
  path_str q ≠ metadata_file c.
Proof.
  change (joinpath (code_directory c) "Dockerfile")
    with (mkPath (root (code_directory c)) (parts (code_directory c) ++ ["Dockerfile"])).
  change (joinpath (code_directory c) METADATA_FILE_NAME)
    with (mkPath (root (code_directory c)) (parts (code_directory c) ++ ["metadata.yaml"])).
  intros Hq%ancestor_length Heq. rewrite Heq in Hq.
  rewrite path_str_parts in Hq by (by destruct (parts (code_directory c))).
  rewrite length_app in Hq.
  pose proof (length_join_snoc "/" (parts (code_directory c)) "metadata.yaml") as H.
  change (String.length "metadata.yaml") with 13 in H. lia.
Qed.

(** Removing a file that lies above nothing of [p] changes nothing above
    [p]. *)
Lemma below_regular_file_delete (fs : gmap string fsnode) p k :
  (∀ q, q ∈ ancestors p → path_str q ≠ k) →
  below_regular_file (delete k fs) p = below_regular_file fs p.
Proof.
  unfold below_regular_file. induction (ancestors p) as [|q qs IH]; intros H; [done|].
  simpl. rewrite IH by (intros q' Hq'; apply H; by right).
  f_equal. unfold is_file. rewrite lookup_delete_ne; [done|].
  apply not_eq_sym, H. by left.
Qed.

End AncestorFacts.

Section MoreResolution.
Import Str StrFacts MoreStrFacts PathFacts AncestorFacts.

Variable safe_load : string → result pyval.
Variable py_format : pyval → string.

(** What the scan returns was stripped out of a field of a marker line. *)
Lemma scan_version_label_Ok lines v :
  scan_version_label lines = Ok v →
  ∃ line f, line ∈ lines ∧ contains "io.airbyte.version" line = true ∧
            split "=" line !! 1 = Some f ∧ v = strip f.
Proof.
  induction lines as [|l lines IH]; simpl; [done|].
  destruct (contains "io.airbyte.version" l) eqn:Hl.
  - unfold list_getitem. destruct (split "=" l !! 1) as [f|] eqn:Hf; simpl; [|done].
    intros [= <-]. exists l, f. split; [by left|done].
  - intros (line & f & ? & ?)%IH. exists line, f. split; [by right|done].
Qed.

(** X5. A marker line without [=] stops the scan with [IndexError], also
    when a later line carries a well-formed label. *)
Theorem version_marker_line_without_equals
    (fs : gmap string fsnode) c content before line after :
  metadata safe_load fs c = Ok PNone →
  fs !! dockerfile_of c = Some (RegularFile content) →
  readlines content = (before ++ line :: after)%list →
  Forall (λ l, contains "io.airbyte.version" l = false) before →
  contains "io.airbyte.version" line = true →
  contains "=" line = false →
  version safe_load fs c = Raise IndexError.
Proof.
  intros Hm Hfile Hlines Hbefore Hline Heq.
  unfold version, version_in_dockerfile_label, read_file.
  rewrite Hm, Hfile. simpl. rewrite Hlines.
  rewrite (scan_version_label_first _ _ _ Hbefore Hline).
  by rewrite (split_no_sep _ _ Heq).
Qed.

(** X6. A version read from the Dockerfile holds no [=] and has no white
    space at either end. *)
Theorem dockerfile_version_shape (fs : gmap string fsnode) c v :
  version_in_dockerfile_label fs c = Ok v →
  contains "=" v = false ∧
  (∀ ch r, v = String ch r → isspace ch = false) ∧
  (∀ r ch, v = r +:+ String ch "" → isspace ch = false).
Proof.
  unfold version_in_dockerfile_label.
  destruct (read_file fs _) as [content|]; simpl; [|done].
  intros (line & f & _ & _ & Hf & ->)%scan_version_label_Ok.
  destruct (strip_spec f) as (w1 & w2 & Hfs & _ & _ & Hhd & Hlast).
  split; [|done].
  destruct (contains "=" (strip f)) eqn:E; [|done].
  pose proof (contains_inside "=" w1 _ w2 E) as Hin. rewrite <- Hfs in Hin.
  pose proof (split_fields_no_sep "=" line) as Hall.
  rewrite Forall_lookup in Hall. by rewrite (Hall _ _ Hf) in Hin.
Qed.

(** X7. [version] makes nothing up: what it returns is the
    [dockerImageTag] of the metadata mapping, or, with metadata absent, a
    string taken from a marker line of the Dockerfile. *)
Theorem version_sources (fs : gmap string fsnode) c v :
  version safe_load fs c = Ok v →
  (∃ items, metadata safe_load fs c = Ok (PDict items) ∧
            dict_lookup "dockerImageTag" items = Some v) ∨
  (metadata safe_load fs c = Ok PNone ∧
   ∃ content line s,
     fs !! dockerfile_of c = Some (RegularFile content) ∧
     line ∈ readlines content ∧
     contains "io.airbyte.version" line = true ∧
     v = PStr s).
Proof.
  unfold version. destruct (metadata safe_load fs c) as [m|] eqn:Hm; simpl; [|done].
  destruct m; simpl;
    try (unfold getitem; done).
  - unfold version_in_dockerfile_label, read_file.
    destruct (fs !! dockerfile_of c) as [[content| |]|] eqn:Hfile; simpl;
      try done; try (by destruct (below_regular_file fs _)).
    destruct (scan_version_label (readlines content)) as [s|] eqn:Hscan; simpl; [|done].
    intros [= <-]. right. split; [done|].
    apply scan_version_label_Ok in Hscan as (line & f & ? & ? & _ & _).
    by exists content, line, s.
  - destruct (dict_lookup "dockerImageTag" items) eqn:E; [|done].
    intros [= <-]. left. by exists items.
Qed.


(** X9. Everything read from metadata depends on the metadata file alone:
    two file systems with the same metadata file give the same metadata,
    release stage, allowed hosts, suggested streams, normalization settings
    and icon path. *)
Theorem metadata_accessors_frame (fs fs' : gmap string fsnode) c :
  fs' !! metadata_file c = fs !! metadata_file c →
  metadata safe_load fs' c = metadata safe_load fs c ∧
  release_stage safe_load fs' c = release_stage safe_load fs c ∧
  allowed_hosts safe_load fs' c = allowed_hosts safe_load fs c ∧
  suggested_streams safe_load fs' c = suggested_streams safe_load fs c ∧
  supports_normalization safe_load fs' c = supports_normalization safe_load fs c ∧
  normalization_repository safe_load py_format fs' c
  = normalization_repository safe_load py_format fs c ∧
  normalization_tag safe_load py_format fs' c
  = normalization_tag safe_load py_format fs c ∧
  icon_path safe_load py_format fs' c = icon_path safe_load py_format fs c.
Proof.
  intros H. pose proof (metadata_agree safe_load _ _ _ H) as Hm.
  unfold release_stage, allowed_hosts, suggested_streams, supports_normalization,
    normalization_repository, normalization_tag, icon_path, supports_normalization.
  by rewrite !Hm.
Qed.

(** X10. A metadata file whose [data] entry is null counts as no
    metadata: [metadata] is [None], the optional accessors give [None], and
    [version] is what it would be with the metadata file removed, the label
    of the Dockerfile. *)
Theorem null_data_is_absent (fs : gmap string fsnode) c text items :
  fs !! metadata_file c = Some (RegularFile text) →
  safe_load text = Ok (PDict items) →
  dict_lookup "data" items = Some PNone →
  metadata safe_load fs c = Ok PNone ∧
  release_stage safe_load fs c = Ok PNone ∧
  supports_normalization safe_load fs c = Ok PNone ∧
  normalization_repository safe_load py_format fs c = Ok PNone ∧
  version safe_load fs c = PStr <$> version_in_dockerfile_label fs c ∧
  version safe_load fs c = version safe_load (delete (metadata_file c) fs) c.
Proof.
  intros Hfile Hdoc Hdata.
  assert (metadata safe_load fs c = Ok PNone) as Hm.
  { rewrite metadata_unfold, Hfile. simpl. rewrite Hdoc. simpl. by rewrite Hdata. }
  assert (metadata safe_load (delete (metadata_file c) fs) c = Ok PNone) as Hm'.
  { by rewrite metadata_unfold, lookup_delete_eq. }
  unfold release_stage, supports_normalization, normalization_repository,
    supports_normalization, version.
  rewrite Hm, Hm'. simpl. repeat split.
  unfold version_in_dockerfile_label, read_file.
  rewrite lookup_delete_ne by apply metadata_path_ne_dockerfile.
  by rewrite below_regular_file_delete by apply ancestor_not_metadata.
Qed.


(** X12. An icon named in the metadata wins and needs no well-formed
    technical name; without one the icon is [<name>.svg], so a technical
    name without a hyphen raises [ConnectorInvalidNameError]. *)
Theorem icon_path_precedence (fs : gmap string fsnode) c :
  (∀ items v,
      metadata safe_load fs c = Ok (PDict items) →
      dict_lookup "icon" items = Some v → truthy v = true →
      icon_path safe_load py_format fs c
      = Ok (parse_path (ICON_ROOT +:+ py_format v))) ∧
  (∀ m,
      metadata safe_load fs c = Ok m →
      m = PNone ∨
      (∃ items, m = PDict items ∧
                truthy (default PNone (dict_lookup "icon" items)) = false) →
      (∀ ty nm, technical_name c = ty +:+ "-" +:+ nm → contains "-" ty = false →
                icon_path safe_load py_format fs c
                = Ok (parse_path (ICON_ROOT +:+ nm +:+ ".svg"))) ∧
      (contains "-" (technical_name c) = false →
       icon_path safe_load py_format fs c = Raise ConnectorInvalidNameError)).
Proof.
  split.
  - intros items v Hm Hicon Hv. unfold icon_path. rewrite Hm.
    assert (truthy (PDict items) = true) as Ht by (by destruct items).
    repeat first [ rewrite bind_Ok | rewrite Ht | rewrite Hicon | rewrite Hv
                 | progress cbn [py_get getitem default from_option id] ].
    done.
  - intros m Hm Hshape.
    assert (icon_path safe_load py_format fs c
            = (nm ← name c; Ok (parse_path (ICON_ROOT +:+ nm +:+ ".svg")))) as ->.
    { unfold icon_path. rewrite Hm, bind_Ok.
      destruct Hshape as [->|(items & -> & Hicon)]; [done|].
      destruct (truthy (PDict items)) eqn:Ht.
      - repeat first [ rewrite bind_Ok | rewrite Hicon | progress cbn [py_get] ]. done.
      - repeat (rewrite bind_Ok || rewrite Ht). done. }
    destruct c as [t]. unfold name. simpl technical_name. split.
    + intros ty nm -> Hty. by rewrite (identity_of_parts _ _ Hty).
    + intros Ht. by rewrite (identity_without_hyphen _ Ht).
Qed.


End MoreResolution.

Lemma version_marker_line_without_equals_witness :
  version Fixtures.safe_load Samples.fs_commented Fixtures.s3 = Raise IndexError.
Proof.
  apply (version_marker_line_without_equals Fixtures.safe_load Samples.fs_commented
           Fixtures.s3 Samples.commented_dockerfile []
           "# io.airbyte.version is set below
" ["LABEL io.airbyte.version=1.0.0
"]).
  - reflexivity.
  - reflexivity.
  - reflexivity.
  - constructor.
  - reflexivity.
  - reflexivity.
Defined.

Lemma dockerfile_version_shape_witness :
  Str.contains "=" "1.2.3" = false ∧
  (∀ ch r, "1.2.3" = String ch r → Str.isspace ch = false) ∧
  (∀ r ch, "1.2.3" = r +:+ String ch "" → Str.isspace ch = false).
Proof.
  apply (dockerfile_version_shape Fixtures.fs_labelled Fixtures.s3 "1.2.3").
  reflexivity.
Defined.

Lemma version_sources_witness :
  (∃ items, metadata Fixtures.safe_load Fixtures.fs_tagged Fixtures.s3 = Ok (PDict items) ∧
            dict_lookup "dockerImageTag" items = Some (PStr "0.2.1")) ∨
  (metadata Fixtures.safe_load Fixtures.fs_tagged Fixtures.s3 = Ok PNone ∧
   ∃ content line s,
     Fixtures.fs_tagged !! dockerfile_of Fixtures.s3 = Some (RegularFile content) ∧
     line ∈ Str.readlines content ∧
     Str.contains "io.airbyte.version" line = true ∧
     PStr "0.2.1" = PStr s).
Proof.
  apply (version_sources Fixtures.safe_load Fixtures.fs_tagged Fixtures.s3).
  reflexivity.
Defined.


Lemma metadata_accessors_frame_witness :
  release_stage Fixtures.safe_load (delete Fixtures.dockerfile Fixtures.fs_tagged) Fixtures.s3
  = release_stage Fixtures.safe_load Fixtures.fs_tagged Fixtures.s3.
Proof.
  apply (metadata_accessors_frame Fixtures.safe_load Fixtures.py_format
           Fixtures.fs_tagged (delete Fixtures.dockerfile Fixtures.fs_tagged) Fixtures.s3).
  reflexivity.
Defined.

Lemma null_data_is_absent_witness :
  metadata Samples.safe_load Samples.fs_null_data Fixtures.s3 = Ok PNone ∧
  version Samples.safe_load Samples.fs_null_data Fixtures.s3
  = version Samples.safe_load (delete Fixtures.metadata_yaml Samples.fs_null_data) Fixtures.s3.
Proof.
  pose proof (null_data_is_absent Samples.safe_load Fixtures.py_format Samples.fs_null_data
                Fixtures.s3 Samples.null_data_text [(PStr "data", PNone)]
                eq_refl eq_refl eq_refl) as (H1 & _ & _ & _ & _ & H6).
  split; [exact H1 | exact H6].
Defined.


Lemma icon_path_precedence_witness :
  icon_path Samples.safe_load Fixtures.py_format Samples.fs_odd_icon Samples.odd
  = Ok (parse_path (ICON_ROOT +:+ "amazon-s3.svg")) ∧
  icon_path Samples.safe_load Fixtures.py_format Fixtures.fs_empty Fixtures.s3
  = Ok (parse_path (ICON_ROOT +:+ "s3" +:+ ".svg")) ∧
  icon_path Samples.safe_load Fixtures.py_format Fixtures.fs_empty Samples.odd
  = Raise ConnectorInvalidNameError.
Proof.
  split; [|split].
  - apply (proj1 (icon_path_precedence Samples.safe_load Fixtures.py_format
                    Samples.fs_odd_icon Samples.odd)
             [(PStr "icon", PStr "amazon-s3.svg")] (PStr "amazon-s3.svg"));
      reflexivity.
  - apply (proj1 (proj2 (icon_path_precedence Samples.safe_load Fixtures.py_format
                           Fixtures.fs_empty Fixtures.s3)
                    PNone eq_refl (or_introl eq_refl)) "source" "s3"); reflexivity.
  - apply (proj2 (proj2 (icon_path_precedence Samples.safe_load Fixtures.py_format
                           Fixtures.fs_empty Samples.odd)
                    PNone eq_refl (or_introl eq_refl))). reflexivity.
Defined.


(* ===================================================================== *)
(** ** More on the detectors *)
(* ===================================================================== *)

Module MoreDetectFacts.
Import Str StrFacts MoreStrFacts DetectFacts.

(** The changed-connectors detector on a given diff output. *)
Lemma changed_connectors_spec B (git_diff : list string → result string) out :
  git_diff ["--name-only"; B] = Ok out →
  ∃ S, get_changed_connectors B git_diff = Ok S ∧
       ∀ c, c ∈ S ↔
            ∃ p, p ∈ split "010" out ∧
                 startswith p SOURCE_CONNECTOR_PATH_PREFIX = true ∧
                 split "/" p !! 2 = Some (technical_name c).
Proof.
  intros Hout. unfold get_changed_connectors. rewrite Hout, bind_Ok.
  by apply (project_paths (λ p, startswith p SOURCE_CONNECTOR_PATH_PREFIX)).
Qed.

(** The acceptance-config detector on a given diff output. *)
Lemma acceptance_config_spec B (git_diff : list string → result string) r out :
  git_diff (diff_command_args B r) = Ok out →
  ∃ S, get_changed_acceptance_test_config B git_diff r = Ok S ∧
       ∀ c, c ∈ S ↔
            ∃ p, p ∈ split "010" out ∧
                 (startswith p SOURCE_CONNECTOR_PATH_PREFIX
                  && endswith p ACCEPTANCE_TEST_CONFIG_FILE_NAME) = true ∧
                 split "/" p !! 2 = Some (technical_name c).
Proof.
  intros Hout. unfold get_changed_acceptance_test_config. rewrite Hout, bind_Ok.
  apply (project_paths (λ p, startswith p SOURCE_CONNECTOR_PATH_PREFIX
                             && endswith p ACCEPTANCE_TEST_CONFIG_FILE_NAME)).
  by intros p [? _]%andb_true_iff.
Qed.

(** The third component of a path under the source prefix names a source
    connector. *)
Lemma source_path_names_source p t :
  startswith p SOURCE_CONNECTOR_PATH_PREFIX = true →
  split "/" p !! 2 = Some t →
  ∃ n, t = "source-" +:+ n ∧ contains "/" n = false ∧
       connector_type (mkConnector t) = Ok "source" ∧
       name (mkConnector t) = Ok n.
Proof.
  intros [r ->]%startswith_spec Ht%name_from_path_lookup.
  rewrite connector_name_of_source_path in Ht. injection Ht as <-.
  exists (hd "" (split "/" r)). split; [done|]. split.
  - pose proof (split_fields_no_sep "/" r) as Hall.
    destruct (split "/" r); [done|]. by inversion Hall.
  - unfold connector_type, name.
    change ("source-" +:+ hd "" (split "/" r))
      with ("source" +:+ "-" +:+ hd "" (split "/" r)).
    by rewrite identity_of_parts.
Qed.

Lemma last_elem_or_default {A} (l : list A) d : List.last l d = d ∨ List.last l d ∈ l.
Proof.
  induction l as [|x l IH]; [by left|].
  destruct l as [|y l]; [right; by left|].
  destruct IH as [IH|IH]; [left; exact IH|right; right; exact IH].
Qed.

Lemma removelast_subseteq {A} (l : list A) x : x ∈ removelast l → x ∈ l.
Proof.
  induction l as [|y l IH]; [done|]. simpl. destruct l as [|z l]; [by intros ?%elem_of_nil|].
  intros [->|H]%elem_of_cons; [by left|]. right. by apply IH.
Qed.

(** The name of the parent directory is a component of the path, or empty. *)
Lemma parent_name_inside f :
  path_name (parent (parse_path f)) = "" ∨
  ∃ a b, f = a +:+ path_name (parent (parse_path f)) +:+ b.
Proof.
  unfold path_name, parent, parse_path. simpl parts.
  destruct (last_elem_or_default
              (removelast (filter (λ c, is_part c) (split "/" f))) "") as [->|H];
    [by left|right].
  apply removelast_subseteq, list_elem_of_filter in H as [_ H].
  by apply split_field_inside in H.
Qed.

End MoreDetectFacts.

Section MoreDetection.
Import Str StrFacts MoreStrFacts DetectFacts MoreDetectFacts.

Variable DIFFED_BRANCH : string.
Variable git_diff : list string → result string.

(** X14. The changed-connectors detector keeps the changed paths under
    the source-connector prefix, whatever the file, and returns the
    connectors named by their third component. *)
Theorem changed_connectors_filter out :
  git_diff ["--name-only"; DIFFED_BRANCH] = Ok out →
  ∃ S, get_changed_connectors DIFFED_BRANCH git_diff = Ok S ∧
       ∀ c, c ∈ S ↔
            ∃ p, p ∈ split "010" out ∧
                 startswith p SOURCE_CONNECTOR_PATH_PREFIX = true ∧
                 split "/" p !! 2 = Some (technical_name c).
Proof. apply changed_connectors_spec. Qed.

(** X15. Both detectors report source connectors only: every technical
    name returned is ["source-"] followed by a slash-free name, so its type
    is ["source"] and the identity properties never raise on it. *)
Theorem detected_connectors_are_sources diff_regex S c :
  get_changed_connectors DIFFED_BRANCH git_diff = Ok S
  ∨ get_changed_acceptance_test_config DIFFED_BRANCH git_diff diff_regex = Ok S →
  c ∈ S →
  ∃ n, technical_name c = "source-" +:+ n ∧ contains "/" n = false ∧
       connector_type c = Ok "source" ∧ name c = Ok n.
Proof.
  intros [HS|HS] Hc; destruct c as [t]; simpl technical_name.
  - unfold get_changed_connectors in HS.
    destruct (git_diff ["--name-only"; DIFFED_BRANCH]) as [out|] eqn:Hout; [|done].
    destruct (changed_connectors_spec _ _ _ Hout) as (S' & HS' & Hmem).
    unfold get_changed_connectors in HS'. rewrite Hout in HS'.
    rewrite HS in HS'. injection HS' as <-.
    apply Hmem in Hc as (p & _ & Hp & Ht). by eapply source_path_names_source.
  - unfold get_changed_acceptance_test_config in HS.
    destruct (git_diff (diff_command_args DIFFED_BRANCH diff_regex)) as [out|] eqn:Hout;
      [|done].
    destruct (acceptance_config_spec _ _ _ _ Hout) as (S' & HS' & Hmem).
    unfold get_changed_acceptance_test_config in HS'. rewrite Hout in HS'.
    rewrite HS in HS'. injection HS' as <-.
    apply Hmem in Hc as (p & _ & [Hp _]%andb_true_iff & Ht).
    by eapply source_path_names_source.
Qed.

(** X16. A change that touches no path under the source-connector prefix
    (documentation, destination connectors, an empty diff) yields the
    empty set from both detectors. *)
Theorem no_source_path_no_connector diff_regex out :
  Forall (λ p, startswith p SOURCE_CONNECTOR_PATH_PREFIX = false) (split "010" out) →
  (git_diff ["--name-only"; DIFFED_BRANCH] = Ok out →
   get_changed_connectors DIFFED_BRANCH git_diff = Ok ∅) ∧
  (git_diff (diff_command_args DIFFED_BRANCH diff_regex) = Ok out →
   get_changed_acceptance_test_config DIFFED_BRANCH git_diff diff_regex = Ok ∅).
Proof.
  intros Hall. rewrite Forall_forall in Hall. split; intros Hout.
  - destruct (changed_connectors_spec _ _ _ Hout) as (S & -> & Hmem).
    f_equal. apply set_eq. intros c. rewrite Hmem. split; [|by intros ?%elem_of_empty].
    intros (p & Hp & Hpre & _). by rewrite (Hall _ Hp) in Hpre.
  - destruct (acceptance_config_spec _ _ _ _ Hout) as (S & -> & Hmem).
    f_equal. apply set_eq. intros c. rewrite Hmem. split; [|by intros ?%elem_of_empty].
    intros (p & Hp & [Hpre _]%andb_true_iff & _). by rewrite (Hall _ Hp) in Hpre.
Qed.

End MoreDetection.

Section Composition.
Import Str StrFacts MoreStrFacts DetectFacts MoreDetectFacts.

Variable DIFFED_BRANCH : string.

(** X17. The detectors work line by line: on two diff outputs put one
    after the other they return the union of what they return on each. *)
Theorem detectors_distribute_over_lines diff_regex out1 out2 :
  (∀ S1 S2,
      get_changed_connectors DIFFED_BRANCH (λ _, Ok out1) = Ok S1 →
      get_changed_connectors DIFFED_BRANCH (λ _, Ok out2) = Ok S2 →
      get_changed_connectors DIFFED_BRANCH (λ _, Ok (out1 +:+ String "010" out2))
      = Ok (S1 ∪ S2)) ∧
  (∀ S1 S2,
      get_changed_acceptance_test_config DIFFED_BRANCH (λ _, Ok out1) diff_regex = Ok S1 →
      get_changed_acceptance_test_config DIFFED_BRANCH (λ _, Ok out2) diff_regex = Ok S2 →
      get_changed_acceptance_test_config DIFFED_BRANCH
        (λ _, Ok (out1 +:+ String "010" out2)) diff_regex
      = Ok (S1 ∪ S2)).
Proof.
  split; intros S1 S2 H1 H2.
  - destruct (changed_connectors_spec DIFFED_BRANCH (λ _, Ok out1) out1 eq_refl)
      as (S1' & HS1 & Hm1).
    destruct (changed_connectors_spec DIFFED_BRANCH (λ _, Ok out2) out2 eq_refl)
      as (S2' & HS2 & Hm2).
    destruct (changed_connectors_spec DIFFED_BRANCH
                (λ _, Ok (out1 +:+ String "010" out2)) _ eq_refl) as (S & -> & Hm).
    rewrite H1 in HS1. rewrite H2 in HS2. injection HS1 as <-. injection HS2 as <-.
    f_equal. apply set_eq. intros c.
    rewrite elem_of_union, Hm, Hm1, Hm2. split.
    + intros (p & Hp & H). rewrite split_app, elem_of_app in Hp.
      destruct Hp as [Hp|Hp]; [left|right]; by exists p.
    + intros [(p & Hp & H)|(p & Hp & H)]; exists p;
        rewrite split_app, elem_of_app; auto.
  - destruct (acceptance_config_spec DIFFED_BRANCH (λ _, Ok out1) diff_regex out1 eq_refl)
      as (S1' & HS1 & Hm1).
    destruct (acceptance_config_spec DIFFED_BRANCH (λ _, Ok out2) diff_regex out2 eq_refl)
      as (S2' & HS2 & Hm2).
    destruct (acceptance_config_spec DIFFED_BRANCH
                (λ _, Ok (out1 +:+ String "010" out2)) diff_regex _ eq_refl)
      as (S & -> & Hm).
    rewrite H1 in HS1. rewrite H2 in HS2. injection HS1 as <-. injection HS2 as <-.
    f_equal. apply set_eq. intros c.
    rewrite elem_of_union, Hm, Hm1, Hm2. split.
    + intros (p & Hp & H). rewrite split_app, elem_of_app in Hp.
      destruct Hp as [Hp|Hp]; [left|right]; by exists p.
    + intros [(p & Hp & H)|(p & Hp & H)]; exists p;
        rewrite split_app, elem_of_app; auto.
Qed.

End Composition.

Section MoreScan.
Import Str StrFacts MoreStrFacts DetectFacts MoreDetectFacts.

Variable glob : string → list string.

(** X18. No connector returned by the scan has the scaffold marker in its
    technical name. *)
Theorem released_connectors_never_scaffold c :
  c ∈ get_all_released_connectors glob →
  contains "-scaffold-" (technical_name c) = false.
Proof.
  unfold get_all_released_connectors.
  rewrite elem_of_list_to_set, list_elem_of_fmap.
  intros (f & -> & [Hf _]%list_elem_of_filter). simpl.
  apply Is_true_true, negb_true_iff in Hf.
  destruct (parent_name_inside f) as [->|(a & b & Hab)]; [done|].
  destruct (contains "-scaffold-" (path_name (parent (parse_path f)))) eqn:E; [|done].
  pose proof (contains_inside _ a _ b E) as Hin. rewrite <- Hab in Hin. congruence.
Qed.

End MoreScan.

Lemma changed_connectors_filter_witness :
  ∃ S, get_changed_connectors "origin/master" Fixtures.git_diff = Ok S ∧
       ∀ c, c ∈ S ↔
            ∃ p, p ∈ Str.split "010" Fixtures.scenario_C_diff ∧
                 Str.startswith p SOURCE_CONNECTOR_PATH_PREFIX = true ∧
                 Str.split "/" p !! 2 = Some (technical_name c).
Proof.
  apply (changed_connectors_filter "origin/master" Fixtures.git_diff). reflexivity.
Defined.

Lemma detected_connectors_are_sources_witness :
  ∃ n, technical_name (mkConnector "source-foo") = "source-" +:+ n ∧
       Str.contains "/" n = false ∧
       connector_type (mkConnector "source-foo") = Ok "source" ∧
       name (mkConnector "source-foo") = Ok n.
Proof.
  apply (detected_connectors_are_sources "origin/master" Fixtures.git_diff None
           {[ mkConnector "source-foo" ]}).
  - left. vm_compute. reflexivity.
  - apply elem_of_singleton. reflexivity.
Defined.

Lemma no_source_path_no_connector_witness :
  get_changed_connectors "origin/master" (λ _, Ok Samples.docs_only_diff) = Ok ∅ ∧
  get_changed_connectors "origin/master" (λ _, Ok "") = Ok ∅.
Proof.
  split.
  - apply (proj1 (no_source_path_no_connector "origin/master"
                    (λ _, Ok Samples.docs_only_diff) None Samples.docs_only_diff
                    ltac:(vm_compute; repeat constructor))).
    reflexivity.
  - apply (proj1 (no_source_path_no_connector "origin/master" (λ _, Ok "") None ""
                    ltac:(vm_compute; repeat constructor))).
    reflexivity.
Defined.

Lemma detectors_distribute_over_lines_witness :
  get_changed_connectors "origin/master"
    (λ _, Ok (Fixtures.scenario_C_diff +:+ String "010" Samples.source_diff))
  = Ok ({[ mkConnector "source-foo" ]} ∪ {[ mkConnector "source-foo" ]}).
Proof.
  apply (proj1 (detectors_distribute_over_lines "origin/master" None
                  Fixtures.scenario_C_diff Samples.source_diff));
    vm_compute; reflexivity.
Defined.

Lemma released_connectors_never_scaffold_witness :
  Str.contains "-scaffold-" (technical_name (mkConnector "source-a")) = false.
Proof.
  apply (released_connectors_never_scaffold Fixtures.glob).
  vm_compute. reflexivity.
Defined.
